(** * Population dashboard: client, growth rates and trend analysis

    A shallow embedding of [src/api.py] and [src/analysis.py].

    Python [float] is IEEE 754 binary64; it is modelled by the standard
    library's [spec_float] at precision 53 and maximal exponent 1024, so that
    every float operation of the source is evaluated bit for bit.  Python
    [int] is [Z].  Exceptions are explicit: fallible code lives in the
    [result] monad. *)

From Stdlib Require Import ZArith QArith Bool Lia.
From Stdlib Require Import Floats.SpecFloat.
From stdpp Require Import base option list strings pretty gmap.

Local Open Scope Z_scope.

(** ** Exceptions and the error monad *)

Inductive exn :=
  | TypeError
  | KeyError
  | IndexError
  | OverflowError
  | ZeroDivisionError
  | ValueError (msg : string)
  | ClientError          (* aiohttp.ClientError and subclasses: network failures *)
  | TimeoutError         (* asyncio.TimeoutError *)
  | JSONDecodeError      (* body is not JSON *)
  | ContentTypeError     (* aiohttp: unexpected mimetype *)
  | CancelledError.      (* asyncio.CancelledError derives from BaseException *)

(** [except Exception] catches every class below except the ones deriving
    from [BaseException] only. *)
Definition is_Exception (e : exn) : bool :=
  match e with
  | CancelledError => false
  | _ => true
  end.

Inductive result (A : Type) :=
  | Ok (a : A)
  | Raise (e : exn).
Arguments Ok {A} a.
Arguments Raise {A} e.

#[global] Instance result_ret : MRet result := fun A a => Ok a.
#[global] Instance result_bind : MBind result := fun A B k m =>
  match m with
  | Ok a => k a
  | Raise e => Raise e
  end.
#[global] Instance result_fmap : FMap result := fun A B f m =>
  match m with
  | Ok a => Ok (f a)
  | Raise e => Raise e
  end.

(** ** Binary64 floats *)

Module Float64.
Definition prec : Z := 53.
Definition emax : Z := 1024.

Definition float := spec_float.

Definition nan : float := S754_nan.
Definition zero : float := S754_zero false.

Definition add : float -> float -> float := SFadd prec emax.
Definition sub : float -> float -> float := SFsub prec emax.
Definition mul : float -> float -> float := SFmul prec emax.
Definition div : float -> float -> float := SFdiv prec emax.

(** Python's comparison operators on floats; every comparison with a NaN
    is [False]. *)
Definition ltb (x y : float) : bool := SFltb x y.
Definition leb (x y : float) : bool := SFleb x y.
Definition gtb (x y : float) : bool := SFltb y x.
Definition geb (x y : float) : bool := SFleb y x.

Definition is_nan (x : float) : bool :=
  match x with S754_nan => true | _ => false end.

(** The integer [z] as an exact, not yet rounded, float datum. *)
Definition exact (z : Z) : float :=
  match z with
  | Z0 => S754_zero false
  | Zpos p => S754_finite false p 0
  | Zneg p => S754_finite true p 0
  end.

(** Round to nearest even: C's [(double) z], also numpy's int64 to float64. *)
Definition round_int (z : Z) : float := binary_normalize prec emax z 0 false.

(** [float(z)] (also the implicit conversion of an int operand in mixed
    arithmetic): correctly rounded, [OverflowError] when out of range. *)
Definition of_int (z : Z) : result float :=
  match round_int z with
  | S754_infinity _ => Raise OverflowError
  | f => Ok f
  end.

(** [a / b] on Python ints: the correctly rounded quotient. *)
Definition int_truediv (a b : Z) : result float :=
  if b =? 0 then Raise ZeroDivisionError
  else if a =? 0 then Ok (S754_zero (b <? 0))
  else match div (exact a) (exact b) with
       | S754_infinity _ => Raise OverflowError
       | q => Ok q
       end.

(** The value of a finite float as a dyadic: [m * 2^e], with [m] signed. *)
Definition signed_mantissa (s : bool) (m : positive) : Z :=
  if s then Zneg m else Zpos m.

(** Python compares a float with an int exactly, without rounding the int. *)
Definition compare_int (x : float) (z : Z) : option comparison :=
  match x with
  | S754_nan => None
  | S754_infinity s => Some (if s then Lt else Gt)
  | S754_zero _ => Some (0 ?= z)
  | S754_finite s m e =>
      Some (if 0 <=? e then signed_mantissa s m * 2 ^ e ?= z
            else signed_mantissa s m ?= z * 2 ^ (- e))
  end.

Definition geb_int (x : float) (z : Z) : bool :=
  match compare_int x z with
  | Some (Gt | Eq) => true
  | _ => false
  end.

Definition gtb_int (x : float) (z : Z) : bool :=
  match compare_int x z with
  | Some Gt => true
  | _ => false
  end.

Definition leb_int (x : float) (z : Z) : bool :=
  match compare_int x z with
  | Some (Lt | Eq) => true
  | _ => false
  end.

(** The rational a float stands for, when finite. *)
Definition to_Q (x : float) : option Q :=
  match x with
  | S754_zero _ => Some 0%Q
  | S754_finite s m e => Some (inject_Z (signed_mantissa s m) * Qpower 2 e)%Q
  | _ => None
  end.

(** [x * z] and [z - x] with an int operand [z]: the int is converted first. *)
Definition mul_int (x : float) (z : Z) : result float :=
  y ← of_int z; Ok (mul x y).

Definition int_sub (z : Z) (x : float) : result float :=
  y ← of_int z; Ok (sub y x).
End Float64.

Abbreviation float := Float64.float.

(** Python numbers that may be an [int] or a [float] depending on the branch
    taken (as in [x if c else 0]). *)
Inductive number :=
  | Int (z : Z)
  | Float (f : float).

(** Arithmetic on such numbers as numpy scalars do it: an int64 and a
    float64 meet in float64, [/] is float64 division and never raises.
    Ints are read in [Z]: this is the arithmetic of the analyzer as long as
    the populations fit in 64 bits, which the statements that depend on it
    assume ([int64_population]); pandas keeps larger ints as Python ints. *)
Module Np.
Definition to_float (x : number) : float :=
  match x with
  | Int z => Float64.round_int z
  | Float f => f
  end.

Definition sub (x y : number) : number :=
  match x, y with
  | Int a, Int b => Int (a - b)
  | _, _ => Float (Float64.sub (to_float x) (to_float y))
  end.

Definition mul (x y : number) : number :=
  match x, y with
  | Int a, Int b => Int (a * b)
  | _, _ => Float (Float64.mul (to_float x) (to_float y))
  end.

Definition truediv (x y : number) : number :=
  Float (Float64.div (to_float x) (to_float y)).

Definition gtb (x y : number) : bool :=
  match x, y with
  | Int a, Int b => b <? a
  | _, _ => Float64.gtb (to_float x) (to_float y)
  end.
End Np.

(** ** Python values, lists and loops *)

#[local] Set Warnings "-register-all".

(** What [response.json()] can return: [None], [bool], [int], [float],
    [str] (one character per element of the string), [list] and [dict] (its
    items in insertion order, keys distinct). *)
Inductive value :=
  | VNone
  | VBool (b : bool)
  | VInt (z : Z)
  | VFloat (f : float)
  | VStr (s : string)
  | VList (items : list value)
  | VDict (items : list (string * value)).

Module Py.

(** Truth value testing, as in [if v:] and [v and w]. *)
Definition truthy (v : value) : bool :=
  match v with
  | VNone => false
  | VBool b => b
  | VInt z => negb (z =? 0)
  | VFloat f => negb (SFeqb f Float64.zero)
  | VStr s => negb (String.eqb s "")
  | VList items => match items with [] => false | _ => true end
  | VDict items => match items with [] => false | _ => true end
  end.

(** [len(v)] *)
Definition len (v : value) : result Z :=
  match v with
  | VStr s => Ok (Z.of_nat (String.length s))
  | VList items => Ok (Z.of_nat (length items))
  | VDict items => Ok (Z.of_nat (length items))
  | _ => Raise TypeError
  end.

(** [l[i]] on a Python list, for a non-negative index. *)
Definition getitem {A} (l : list A) (i : nat) : result A :=
  match l !! i with
  | Some x => Ok x
  | None => Raise IndexError
  end.

(** [v[i]] for a non-negative int [i].  The keys of a dict made from JSON
    are strings, so an int key is never found. *)
Definition index (v : value) (i : nat) : result value :=
  match v with
  | VList items => getitem items i
  | VStr s => match String.get i s with
              | Some c => Ok (VStr (String c EmptyString))
              | None => Raise IndexError
              end
  | VDict _ => Raise KeyError
  | _ => Raise TypeError
  end.

Fixpoint assoc (k : string) (items : list (string * value)) : option value :=
  match items with
  | [] => None
  | (k', v) :: rest => if String.eqb k k' then Some v else assoc k rest
  end.

(** [v[k]] for a str [k]. *)
Definition field (v : value) (k : string) : result value :=
  match v with
  | VDict items => match assoc k items with
                   | Some x => Ok x
                   | None => Raise KeyError
                   end
  | _ => Raise TypeError
  end.

(** [v > 0]: defined on numbers ([bool] is a subclass of [int]), a
    [TypeError] on anything else. *)
Definition gt_zero (v : value) : result bool :=
  match v with
  | VBool b => Ok b
  | VInt z => Ok (0 <? z)
  | VFloat f => Ok (Float64.gtb f Float64.zero)
  | _ => Raise TypeError
  end.

(** [for i in idx: s = body(i, s)], stopping at the first exception. *)
Fixpoint for_each {S} (body : nat -> S -> result S) (idx : list nat) (s : S) : result S :=
  match idx with
  | [] => Ok s
  | i :: rest => s' ← body i s; for_each body rest s'
  end.

(** [range(a, b)] on ints. *)
Definition range (a b : Z) : list Z :=
  (fun i : nat => a + Z.of_nat i) <$> seq 0 (Z.to_nat (b - a)).

(** [list(filter(f, l))] where [f] may raise. *)
Fixpoint filter {A} (f : A -> result bool) (l : list A) : result (list A) :=
  match l with
  | [] => Ok []
  | x :: rest =>
      keep ← f x;
      rest' ← filter f rest;
      Ok (if keep : bool then x :: rest' else rest')
  end.

End Py.

(** ** [src/api.py] *)

Module Api.

(** [@dataclass PopulationData].  The annotation [population: int] is not
    enforced at run time: the client stores whatever JSON value the
    response carried, so the type of the field is a parameter; the
    growth-rate pass and the analysis are read at [Z]. *)
Record PopulationData (V : Type) := mkPopulationData {
  country : string;
  year : Z;
  population : V;
  growth_rate : option float
}.
Arguments mkPopulationData {V} _ _ _ _.
Arguments country {V} _.
Arguments year {V} _.
Arguments population {V} _.
Arguments growth_rate {V} _.

(** [PopulationData(country=c, year=y, population=p)]: [growth_rate]
    defaults to [None]. *)
Definition new_record {V} (c : string) (y : Z) (p : V) : PopulationData V :=
  mkPopulationData c y p None.

(** [d.growth_rate = g] *)
Definition set_growth_rate {V} (d : PopulationData V) (g : float) : PopulationData V :=
  mkPopulationData (country d) (year d) (population d) (Some g).

(** [PopulationAPIClient].  Times are [datetime] values, counted in
    microseconds.  The [asyncio.Semaphore] of line 31 bounds the number of
    calls in flight; it is kept apart from this record, as [Semaphore]
    below. *)
Record PopulationAPIClient := mkClient {
  rate_limit : Z;
  time_window : Z;
  last_request_time : Z;
  request_count : Z
}.

(** [__init__], run when the clock reads [now]. *)
Definition init (rate_limit time_window now : Z) : PopulationAPIClient :=
  mkClient rate_limit time_window now 0.

Definition with_window (self : PopulationAPIClient) (count start : Z) : PopulationAPIClient :=
  mkClient (rate_limit self) (time_window self) start count.

(** [timedelta.total_seconds()] of a difference of [us] microseconds. *)
Definition total_seconds (us : Z) : result float :=
  Float64.int_truediv us 1000000.

(** [_rate_limit] is a coroutine with one suspension point.  Run from its
    start with the clock at [now], it either reaches the increment of line
    48 without suspending, or suspends in [asyncio.sleep(delay)] with
    [self] untouched. *)
Inductive admission :=
  | Passed (self' : PopulationAPIClient)
  | Suspended (delay : float).

(** Line 48: [self.request_count += 1] *)
Definition count_request (self : PopulationAPIClient) : PopulationAPIClient :=
  with_window self (request_count self + 1) (last_request_time self).

Definition rate_limit_enter (self : PopulationAPIClient) (now : Z) : result admission :=
  time_diff ← total_seconds (now - last_request_time self);
  if Float64.geb_int time_diff (time_window self) then
    Ok (Passed (count_request (with_window self 0 now)))
  else if rate_limit self <=? request_count self then
    delay ← Float64.int_sub (time_window self) time_diff;
    Ok (Suspended delay)
  else
    Ok (Passed (count_request self)).

(** Lines 45-48: what the coroutine does when the sleep returns, on the
    client as it is then, the clock reading [woke]. *)
Definition rate_limit_resume (self : PopulationAPIClient) (woke : Z) : PopulationAPIClient :=
  count_request (with_window self 0 woke).

(** One call of [_rate_limit] that no other coroutine interleaves with:
    the new client and the delay slept for, if any. *)
Definition _rate_limit (self : PopulationAPIClient) (now woke : Z)
  : result (PopulationAPIClient * option float) :=
  a ← rate_limit_enter self now;
  match a with
  | Passed self' => Ok (self', None)
  | Suspended delay => Ok (rate_limit_resume self woke, Some delay)
  end.

(** [n] calls started while the clock reads [now], each run up to its
    first suspension, as the event loop does with tasks that are ready:
    the delay each one asks to sleep for, [None] when it is admitted at
    once. *)
Fixpoint burst (n : nat) (self : PopulationAPIClient) (now : Z)
  : result (PopulationAPIClient * list (option float)) :=
  match n with
  | O => Ok (self, [])
  | S n' =>
      a ← rate_limit_enter self now;
      match a with
      | Passed self' =>
          '(self'', rest) ← burst n' self' now; Ok (self'', None :: rest)
      | Suspended delay =>
          '(self'', rest) ← burst n' self now; Ok (self'', Some delay :: rest)
      end
  end.

(** What the HTTP exchange of lines 71-74 comes to: opening the session or
    [session.get] raises, or a response arrives with a status and the
    outcome of [await response.json()] should it be awaited. *)
Inductive http_outcome :=
  | GetRaises (e : exn)
  | Response (status : Z) (body : result value).

(** [data and len(data) > 1 and data[1]], taken as a condition. *)
Definition shape_guard (data : value) : result bool :=
  if negb (Py.truthy data) then Ok false
  else
    n ← Py.len data;
    if negb (1 <? n) then Ok false
    else
      d1 ← Py.index data 1;
      Ok (Py.truthy d1).

(** [data[1][0]['value']] *)
Definition first_value (data : value) : result value :=
  d1 ← Py.index data 1;
  d10 ← Py.index d1 0;
  Py.field d10 "value".

(** The body of the [try] block: [Ok (Some p)] when line 77 returns a
    record with population [p], [Ok None] when the block falls through. *)
Definition try_body (http : http_outcome) : result (option value) :=
  match http with
  | GetRaises e => Raise e
  | Response status body =>
      if status =? 200 then
        data ← body;
        ok ← shape_guard data;
        if ok : bool then
          population ← first_value data;
          Ok (Some population)
        else Ok None
      else Ok None
  end.

(** Lines 64-85.  The outcome is the returned record together with the
    exception that was logged, if one was; an exception that is not an
    [Exception] is not caught. *)
Definition request (country_code : string) (year : Z) (http : http_outcome)
  : result (PopulationData value * option exn) :=
  match try_body http with
  | Ok (Some population) => Ok (new_record country_code year population, None)
  | Ok None => Ok (new_record country_code year (VInt 0), None)
  | Raise e =>
      if is_Exception e then Ok (new_record country_code year (VInt 0), Some e)
      else Raise e
  end.

(** [get_country_population], for a call that is not interleaved with
    another one between its admission and its request. *)
Definition get_country_population (self : PopulationAPIClient) (now woke : Z)
    (country_code : string) (year : Z) (http : http_outcome)
  : result (PopulationAPIClient * PopulationData value * option exn) :=
  '(self', _) ← _rate_limit self now woke;
  '(data, logged) ← request country_code year http;
  Ok (self', data, logged).

(** [asyncio.Semaphore], as documented: a counter, and the calls blocked in
    [acquire], which are let in in the order in which they started to
    wait.  [__init__] creates it with [rate_limit] as its value (line 31). *)
Record Semaphore := mkSemaphore {
  sem_value : Z;
  sem_waiters : list nat
}.

(** Line 31: [self.semaphore = asyncio.Semaphore(rate_limit)] *)
Definition init_semaphore (rate_limit : Z) : Semaphore := mkSemaphore rate_limit [].

(** [acquire], by the call numbered [call]: it returns at once, the counter
    decremented, when the counter is positive; otherwise the call waits. *)
Definition acquire (sem : Semaphore) (call : nat) : Semaphore * bool :=
  if 0 <? sem_value sem
  then (mkSemaphore (sem_value sem - 1) (sem_waiters sem), true)
  else (mkSemaphore (sem_value sem) (sem_waiters sem ++ [call]), false).

(** [release]: the counter is incremented and a waiting call, if there is
    one, is woken; the call woken is the one that has waited longest, and
    its [acquire] decrements the counter again, so that the counter is left
    as it was. *)
Definition release (sem : Semaphore) : Semaphore * option nat :=
  match sem_waiters sem with
  | [] => (mkSemaphore (sem_value sem + 1) [], None)
  | call :: rest => (mkSemaphore (sem_value sem) rest, Some call)
  end.

(** Where a call of [get_country_population] is suspended: in
    [async with self.semaphore] (line 61), in the [asyncio.sleep] of
    [_rate_limit] (line 45), or in its HTTP exchange (lines 71-74), which it
    reaches once [_rate_limit] has returned. *)
Inductive suspension :=
  | AtSemaphore
  | InSleep (delay : float)
  | InRequest.

(** Line 62, for a call that holds the semaphore: [_rate_limit] run from its
    start up to the next suspension of the call, the clock reading [now]. *)
Definition fetch_admitted (self : PopulationAPIClient) (now : Z)
  : result (PopulationAPIClient * suspension) :=
  a ← rate_limit_enter self now;
  Ok (match a with
      | Passed self' => (self', InRequest)
      | Suspended delay => (self, InSleep delay)
      end).

(** A call of [get_country_population] run from its start up to its first
    suspension: lines 61-62. *)
Definition fetch_start (self : PopulationAPIClient) (sem : Semaphore) (call : nat) (now : Z)
  : result (PopulationAPIClient * Semaphore * suspension) :=
  let '(sem', acquired) := acquire sem call in
  if acquired : bool then
    '(self', s) ← fetch_admitted self now; Ok (self', sem', s)
  else Ok (self, sem', AtSemaphore).

(** Calls started one after the other, numbered from [call] on, each run up
    to its first suspension as the event loop does with tasks that are
    ready; [nows] are the clock readings they would take in [_rate_limit]
    (a call that waits for the semaphore takes none). *)
Fixpoint fetch_all (self : PopulationAPIClient) (sem : Semaphore) (call : nat) (nows : list Z)
  : result (PopulationAPIClient * Semaphore * list suspension) :=
  match nows with
  | [] => Ok (self, sem, [])
  | now :: rest =>
      '(self', sem', s) ← fetch_start self sem call now;
      '(self'', sem'', ss) ← fetch_all self' sem' (S call) rest;
      Ok (self'', sem'', s :: ss)
  end.

(** The loop of lines 109-112 over the outcomes of the tasks in the order
    in which they complete: the records yielded, and the exception that
    ends the generator if there is one. *)
Fixpoint yield_valid (completed : list (result (PopulationData value)))
  : list (PopulationData value) * option exn :=
  match completed with
  | [] => ([], None)
  | Raise e :: _ => ([], Some e)
  | Ok data :: rest =>
      match Py.gt_zero (population data) with
      | Raise e => ([], Some e)
      | Ok true => let '(ys, e) := yield_valid rest in (data :: ys, e)
      | Ok false => yield_valid rest
      end
  end.

(** [asyncio.as_completed(tasks)]: the tasks in the order in which they
    complete, [order] listing their positions in [tasks]. *)
Definition as_completed {A} (order : list nat) (tasks : list A) : list A :=
  omap (fun i => tasks !! i) order.

(** What the task of one year meets: the client and the clock readings at
    its admission, and its HTTP exchange. *)
Record task_env := mkTaskEnv {
  env_self : PopulationAPIClient;
  env_now : Z;
  env_woke : Z;
  env_http : http_outcome
}.

(** [get_country_population_range], the tasks completing in [order]. *)
Definition get_country_population_range (env : Z -> task_env) (order : list nat)
    (country_code : string) (start_year end_year : Z)
  : list (PopulationData value) * option exn :=
  let tasks :=
    (fun year =>
       let e := env year in
       (fun r => snd (fst r)) <$>
         get_country_population (env_self e) (env_now e) (env_woke e)
           country_code year (env_http e))
      <$> Py.range start_year (end_year + 1) in
  yield_valid (as_completed order tasks).

(** [((curr_pop - prev_pop) / prev_pop) * 100] on ints. *)
Definition growth_formula (prev_pop curr_pop : Z) : result float :=
  q ← Float64.int_truediv (curr_pop - prev_pop) prev_pop;
  Float64.mul_int q 100.

(** The body of the loop of line 136 at index [i]. *)
Definition growth_step (i : nat) (population_data : list (PopulationData Z))
  : result (list (PopulationData Z)) :=
  prev ← Py.getitem population_data (i - 1);
  cur ← Py.getitem population_data i;
  let prev_pop := population prev in
  let curr_pop := population cur in
  if 0 <? prev_pop then
    growth_rate ← growth_formula prev_pop curr_pop;
    Ok (<[i := set_growth_rate cur growth_rate]> population_data)
  else Ok population_data.

(** Lines 131-143 of [calculate_growth_rate], given in [fetched] the
    records that the range fetcher yields, their populations being ints as
    the statistics API reports them: they are appended one by one to
    [population_data], which is then annotated in place for
    [i in range(1, len(population_data))] and returned.  Each record is an
    object of its own, built by the task that fetched it, so that writing to
    the record at one index is writing at that position of the list only. *)
Definition calculate_growth_rate (fetched : list (PopulationData Z))
  : result (list (PopulationData Z)) :=
  let population_data := fetched in
  Py.for_each growth_step (seq 1 (length population_data - 1)) population_data.

End Api.

(** ** The pandas operations that [src/analysis.py] calls

    pandas is a dependency, not part of the repository: its operations are
    modelled as documented.  A frame built from a list of dicts has the keys
    of the dicts as columns, in order of first appearance, so a frame built
    from no dict has no column.  Reductions skip missing values ([None],
    NaN) and yield NaN when nothing is left. *)

Module Pandas.

Record DataFrame (R : Type) := mkFrame {
  columns : list string;
  rows : list R
}.
Arguments mkFrame {R} _ _.
Arguments columns {R} _.
Arguments rows {R} _.

(** [pd.DataFrame([d1, d2, ...])], where [keys r] are the keys of the dict
    standing for row [r]. *)
Definition from_dicts {R} (keys : R -> list string) (data : list R) : DataFrame R :=
  mkFrame
    (foldl (fun cols r => cols ++ filter (fun k => k ∉ cols) (keys r)) [] data)
    data.

(** [name in df.columns] *)
Definition has_column {R} (df : DataFrame R) (name : string) : bool :=
  bool_decide (name ∈ columns df).

(** [df[name]], the cells being read off the rows by [get]. *)
Definition column {R A} (df : DataFrame R) (name : string) (get : R -> A)
  : result (list A) :=
  if has_column df name then Ok (get <$> rows df) else Raise KeyError.

(** [Series.max()] and [Series.min()] of a column of ints. *)
Definition max (s : list Z) : number :=
  match s with
  | [] => Float Float64.nan
  | x :: rest => Int (foldl Z.max x rest)
  end.

Definition min (s : list Z) : number :=
  match s with
  | [] => Float Float64.nan
  | x :: rest => Int (foldl Z.min x rest)
  end.

(** The cells of a float column that are present. *)
Definition present (s : list (option float)) : list float :=
  omap (fun c => f ← c; if Float64.is_nan f then None else Some f) s.

Section Mean.
(** The sum of an array of floats.  numpy and bottleneck add in different
    orders, and the source does not say which one is installed. *)
Variable fsum : list float -> float.

(** [Series.mean()] of a column of floats: [skipna=True]. *)
Definition mean (s : list (option float)) : number :=
  match present s with
  | [] => Float Float64.nan
  | vals => Float (Float64.div (fsum vals) (Float64.round_int (Z.of_nat (length vals))))
  end.
End Mean.

(** A field of a CSV row: a float is written with [repr], a missing value
    as the empty string. *)
Inductive csv_field :=
  | FText (s : string)
  | FInt (z : Z)
  | FFloat (f : float)
  | FEmpty.

Definition float_field (c : option float) : csv_field :=
  match c with
  | Some f => if Float64.is_nan f then FEmpty else FFloat f
  | None => FEmpty
  end.

Fixpoint dict_get {A} (k : string) (d : list (string * A)) : option A :=
  match d with
  | [] => None
  | (k', v) :: rest => if String.eqb k k' then Some v else dict_get k rest
  end.

(** [df.to_csv(..., index=False)]: the header row, made of the column
    names, then one row per row of the frame.  [dict r] is the dict
    standing for row [r]. *)
Definition to_csv {R} (df : DataFrame R) (dict : R -> list (string * csv_field))
  : list (list csv_field) :=
  (FText <$> columns df)
    :: ((fun r => (fun c => default FEmpty (dict_get c (dict r))) <$> columns df) <$> rows df).

End Pandas.

(** ** [src/analysis.py] *)

Module Analysis.

Record PopulationAnalysis := mkAnalysis {
  country : string;
  start_year : number;
  end_year : number;
  average_growth_rate : number;
  max_population : number;
  min_population : number;
  total_change : number;
  percentage_change : number
}.

(** The generator [process_population_data], collected into a list. *)
Definition process_population_data (data : list (Api.PopulationData Z))
  : list (Api.PopulationData Z) :=
  List.filter (fun entry => 0 <? Api.population entry) data.

Definition no_data : exn :=
  ValueError "No valid population data available for analysis".

Section Analyze.
Variable fsum : list float -> float.

Definition analyze_population_trends (data : list (Api.PopulationData Z))
  : result PopulationAnalysis :=
  let valid_data := process_population_data data in
  match valid_data with
  | [] => Raise no_data
  | first :: _ =>
      let df := Pandas.from_dicts (fun _ => ["year"; "population"; "growth_rate"]) valid_data in
      avg_growth ←
        (if Pandas.has_column df "growth_rate"
         then Pandas.mean fsum <$> Pandas.column df "growth_rate" Api.growth_rate
         else Ok (Int 0));
      max_pop ← Pandas.max <$> Pandas.column df "population" Api.population;
      min_pop ← Pandas.min <$> Pandas.column df "population" Api.population;
      let total_change := Np.sub max_pop min_pop in
      let percentage_change :=
        if Np.gtb min_pop (Int 0)
        then Np.mul (Np.truediv total_change min_pop) (Int 100)
        else Int 0 in
      start ← Pandas.min <$> Pandas.column df "year" Api.year;
      stop ← Pandas.max <$> Pandas.column df "year" Api.year;
      Ok (mkAnalysis (Api.country first) start stop avg_growth
            max_pop min_pop total_change percentage_change)
  end.
End Analyze.

(** [x.growth_rate >= bound] and [x.growth_rate <= bound]: comparing
    [None] with a number is a [TypeError]. *)
Definition rate_ge (rate : option float) (bound : number) : result bool :=
  match rate with
  | None => Raise TypeError
  | Some r => Ok (match bound with
                  | Int z => Float64.geb_int r z
                  | Float b => Float64.geb r b
                  end)
  end.

Definition rate_le (rate : option float) (bound : number) : result bool :=
  match rate with
  | None => Raise TypeError
  | Some r => Ok (match bound with
                  | Int z => Float64.leb_int r z
                  | Float b => Float64.leb r b
                  end)
  end.

(** The lambda of line 95; [and] and [or] short-circuit. *)
Definition growth_filter (min_growth max_growth : option number)
    (x : Api.PopulationData Z) : result bool :=
  above ← match min_growth with
          | None => Ok true
          | Some m => rate_ge (Api.growth_rate x) m
          end;
  if above : bool then
    match max_growth with
    | None => Ok true
    | Some m => rate_le (Api.growth_rate x) m
    end
  else Ok false.

Definition filter_by_growth_rate (data : list (Api.PopulationData Z))
    (min_growth max_growth : option number) : result (list (Api.PopulationData Z)) :=
  Py.filter (growth_filter min_growth max_growth) data.

(** The dict built for each record at lines 114-119. *)
Definition export_dict (d : Api.PopulationData Z) : list (string * Pandas.csv_field) :=
  [("country", Pandas.FText (Api.country d));
   ("year", Pandas.FInt (Api.year d));
   ("population", Pandas.FInt (Api.population d));
   ("growth_rate", Pandas.float_field (Api.growth_rate d))].

(** [export_to_csv]: the files, by name, after the call. *)
Definition export_to_csv (data : list (Api.PopulationData Z)) (filename : string)
    (files : gmap string (list (list Pandas.csv_field)))
  : gmap string (list (list Pandas.csv_field)) :=
  let df := Pandas.from_dicts (fun d => fst <$> export_dict d) data in
  <[filename := Pandas.to_csv df export_dict]> files.

End Analysis.



(** ** [src/api.py]: the request of a fetch *)

Module Request.

(** [PopulationAPIClient.BASE_URL] *)
Definition BASE_URL : string := "https://api.worldbank.org/v2/country".

(** Line 64: [f"{self.BASE_URL}/{country_code}/indicator/SP.POP.TOTL"] *)
Definition url (country_code : string) : string :=
  BASE_URL +:+ "/" +:+ country_code +:+ "/indicator/SP.POP.TOTL".

(** Lines 65-68: the query parameters, [str(year)] being the decimal
    writing of the int. *)
Definition params (year : Z) : list (string * string) :=
  [("format", "json"); ("date", pretty year)].

End Request.

(** ** [src/dashboard.py]: what a click on "Analyze" comes to

    The script is read for what it decides to show; the widgets themselves
    are not modelled. *)

Module Dashboard.

(** Line 134: [[(d.year, d.growth_rate) for d in data if d.growth_rate is not None]] *)
Definition growth_data (data : list (Api.PopulationData Z)) : list (Z * float) :=
  omap (fun d => rate ← Api.growth_rate d; Some (Api.year d, rate)) data.

(** Lines 109-110: the points of the population chart. *)
Definition trend (data : list (Api.PopulationData Z)) : list (Z * Z) :=
  (fun d => (Api.year d, Api.population d)) <$> data.

Inductive view :=
  | NoData
      (* [st.error("No data available for the selected parameters.")], [st.stop()] *)
  | Report (analysis : Analysis.PopulationAnalysis) (population_chart : list (Z * Z))
      (growth_chart : option (list (Z * float))).
      (* [None]: [st.warning("No growth rate data available ...")] *)

Section Analyze.
Variable fsum : list float -> float.

(** Lines 71-165, from the records the range fetcher yields for the country
    and the years chosen: [get_data], the test [if not data], the analysis
    and the two charts. *)
Definition analyze_clicked (fetched : list (Api.PopulationData Z)) : result view :=
  data ← Api.calculate_growth_rate fetched;
  match data with
  | [] => Ok NoData
  | _ =>
      analysis ← Analysis.analyze_population_trends fsum data;
      let growth := growth_data data in
      Ok (Report analysis (trend data)
            (match growth with [] => None | _ => Some growth end))
  end.
End Analyze.

End Dashboard.


(** * Specification vocabulary

    Predicates and sample data that the statements below are written with. *)

(** What the loop body of the growth-rate pass makes of record [o] whose
    predecessor is [p]. *)
Definition annotated (p o c : Api.PopulationData Z) : Prop :=
  if 0 <? Api.population p
  then exists g, Api.growth_formula (Api.population p) (Api.population o) = Ok g
                 /\ c = Api.set_growth_rate o g
  else c = o.

(** The state of [population_data] once the indices [1..k] are done. *)
Definition done_upto (orig cur : list (Api.PopulationData Z)) (k : nat) : Prop :=
  length cur = length orig /\
  (forall j, j = 0%nat \/ (k < j)%nat -> cur !! j = orig !! j) /\
  (forall j p o, (1 <= j <= k)%nat -> orig !! (j - 1)%nat = Some p -> orig !! j = Some o ->
     exists c, cur !! j = Some c /\ annotated p o c).

(** Every quotient the pass computes is representable. *)
Definition rates_defined (orig : list (Api.PopulationData Z)) : Prop :=
  forall j p o, orig !! j = Some p -> orig !! S j = Some o -> 0 < Api.population p ->
    exists g, Api.growth_formula (Api.population p) (Api.population o) = Ok g.

(** The first observation's value of a response of the shape the client
    accepts: an array of at least two elements whose second element is a list
    that starts with an object having a ["value"] key. *)
Definition observed_value (data : value) : option value :=
  match data with
  | VList (_ :: VList (VDict items :: _) :: _) => Py.assoc "value" items
  | _ => None
  end.

(** The shape the specification expects: [[metadata, [{value: ...}, ...]]]. *)
Definition expected_shape (data : value) : Prop :=
  exists metadata items rest,
    data = VList [metadata; VList (VDict items :: rest)]
    /\ is_Some (Py.assoc "value" items).

(** The exception the exchange raises inside the [try] block, if any. *)
Definition failure_of (http : Api.http_outcome) : option exn :=
  match http with
  | Api.GetRaises e => Some e
  | Api.Response status (Raise e) => if status =? 200 then Some e else None
  | Api.Response _ (Ok _) => None
  end.

(** The population the client reports for an exchange. *)
Definition reported (http : Api.http_outcome) : value :=
  match http with
  | Api.Response status (Ok data) =>
      if status =? 200 then default (VInt 0) (observed_value data) else VInt 0
  | _ => VInt 0
  end.

Definition strictly_positive (v : value) : Prop :=
  match v with
  | VInt z => 0 < z
  | VFloat f => Float64.gtb f Float64.zero = true
  | VBool b => b = true
  | _ => False
  end.

(** Whether a rate satisfies the bounds that are given. *)
Definition in_bounds (min_growth max_growth : option number) (r : float) : bool :=
  match min_growth with
  | None => true
  | Some (Int z) => Float64.geb_int r z
  | Some (Float b) => Float64.geb r b
  end
  && match max_growth with
     | None => true
     | Some (Int z) => Float64.leb_int r z
     | Some (Float b) => Float64.leb r b
     end.

Definition csv_header : list Pandas.csv_field :=
  [Pandas.FText "country"; Pandas.FText "year"; Pandas.FText "population";
   Pandas.FText "growth_rate"].

Definition csv_row (d : Api.PopulationData Z) : list Pandas.csv_field :=
  [Pandas.FText (Api.country d); Pandas.FInt (Api.year d); Pandas.FInt (Api.population d);
   Pandas.float_field (Api.growth_rate d)].

(** Sample inputs. *)

Definition example_series : list (Api.PopulationData Z) :=
  [Api.new_record "USA" 2000 100; Api.new_record "USA" 2001 110; Api.new_record "USA" 2002 99].

Definition all_zero_series : list (Api.PopulationData Z) :=
  [Api.new_record "USA" 2000 0; Api.new_record "USA" 2001 0].

Definition single_year : list (Api.PopulationData Z) := [Api.new_record "USA" 2000 100].

Definition three_element_body : value :=
  VList [VNone; VList [VDict [("value", VInt 7)]]; VNone].

Definition body_with (v : value) : value :=
  VList [VNone; VList [VDict [("indicator", VNone); ("value", v)]]].

Definition example_env (year : Z) : Api.task_env :=
  Api.mkTaskEnv (Api.init 10 1 0) 0 0
    (if year =? 2000 then Api.Response 200 (Ok (body_with (VInt 100)))
     else if year =? 2001 then Api.Response 500 (Ok VNone)
     else if year =? 2002 then Api.Response 200 (Ok (body_with (VInt (-5))))
     else if year =? 2003 then Api.GetRaises ClientError
     else Api.Response 200 (Ok (body_with (VInt 250)))).

(** A sum taken from left to right, to run the analyzer on sample inputs. *)
Definition left_to_right_sum (l : list float) : float :=
  foldl Float64.add Float64.zero l.

Ltac try_body_case :=
  cbn; first [ reflexivity | left; reflexivity | right; eexists; split; reflexivity ].

(** A float that is no NaN and whose sign bit is [s]. *)
Definition has_sign (s : bool) (x : float) : Prop :=
  match x with
  | S754_zero s' | S754_infinity s' | S754_finite s' _ _ => s' = s
  | S754_nan => False
  end.

(** A record as the client builds it and the range fetcher yields it, with
    an int population: positive, below [2^1023], no growth rate yet. *)
Definition fresh_record (d : Api.PopulationData Z) : Prop :=
  0 < Api.population d < 2 ^ 1023 /\ Api.growth_rate d = None.

(** A range in which the year 2001 is answered with a JSON null. *)
Definition null_env (year : Z) : Api.task_env :=
  Api.mkTaskEnv (Api.init 10 1 0) 0 0
    (if year =? 2001 then Api.Response 200 (Ok (body_with VNone))
     else Api.Response 200 (Ok (body_with (VInt 100)))).

(** The records of [example_series] out of order, one of them twice, with a
    record of population 0 among them. *)
Definition mixed_series : list (Api.PopulationData Z) :=
  [Api.new_record "USA" 2002 99; Api.new_record "USA" 1999 0;
   Api.new_record "USA" 2001 110; Api.new_record "USA" 2000 100;
   Api.new_record "USA" 2001 110].

(** The records that the pass annotates in [example_series]. *)
Definition rated_series : list (Api.PopulationData Z) :=
  [Api.mkPopulationData "USA" 2001 110 (Some (Float64.round_int 10));
   Api.mkPopulationData "USA" 2002 99 (Some (Float64.round_int (-10)))].

(** A population that fits numpy's [int64], the type pandas gives a column
    of such ints: on these the arithmetic of [Np] is the one the analyzer
    runs.  (Records of non-positive population never reach the frame.) *)
Definition int64_population (d : Api.PopulationData Z) : Prop :=
  Api.population d < 2 ^ 63.

(** * Properties *)

(** ** Binary64: a quotient of ints below [2^1023] is finite *)

Section Binary64.

Lemma digits2_pos_log2 (p : positive) :
  Zpos (digits2_pos p) = Z.log2 (Zpos p) + 1.
Proof.
  assert (H : forall q, digits2_pos q = Pos.size q).
  { induction q as [q IH|q IH|]; simpl; congruence. }
  destruct p as [p|p|]; simpl; try reflexivity; rewrite H; lia.
Qed.

Lemma Zdigits2_log2 (m : Z) : 0 < m -> Zdigits2 m = Z.log2 m + 1.
Proof. destruct m; try lia. intros _. apply digits2_pos_log2. Qed.

Lemma Zdigits2_nonneg (m : Z) : 0 <= Zdigits2 m.
Proof. destruct m; simpl; lia. Qed.

Lemma Zdigits2_mono (m n : Z) : 0 <= m <= n -> Zdigits2 m <= Zdigits2 n.
Proof.
  intros [Hm Hmn]. destruct (Z.eq_dec m 0) as [->|Hne].
  - apply Zdigits2_nonneg.
  - rewrite !Zdigits2_log2 by lia.
    pose proof (Z.log2_le_mono m n Hmn). lia.
Qed.

Lemma Zdigits2_succ (m : Z) : 0 <= m -> Zdigits2 (m + 1) <= Zdigits2 m + 1.
Proof.
  intros Hm. destruct (Z.eq_dec m 0) as [->|Hne]; [simpl; lia|].
  rewrite !Zdigits2_log2 by lia.
  pose proof (Z.log2_succ_le m). unfold Z.succ in *. lia.
Qed.

Lemma Zdigits2_div_pow2 (m n : Z) :
  0 <= m -> 0 <= n -> Zdigits2 (m / 2 ^ n) <= Z.max 0 (Zdigits2 m - n).
Proof.
  intros Hm Hn. rewrite <- Z.shiftr_div_pow2 by lia.
  destruct (Z.eq_dec m 0) as [->|Hne].
  { rewrite Z.shiftr_0_l. simpl. lia. }
  pose proof (Z.shiftr_nonneg m n) as [_ Hs]. specialize (Hs Hm).
  destruct (Z.eq_dec (Z.shiftr m n) 0) as [->|Hne']; [simpl; lia|].
  assert (Hlog : n <= Z.log2 m).
  { destruct (Z_le_gt_dec n (Z.log2 m)) as [|Hgt]; [done|].
    exfalso. apply Hne'. apply Z.shiftr_eq_0_iff. right. lia. }
  rewrite !Zdigits2_log2 by lia.
  rewrite Z.log2_shiftr by lia. lia.
Qed.

Lemma shr_1_m (r : shr_record) : 0 <= shr_m r -> shr_m (shr_1 r) = shr_m r / 2.
Proof.
  destruct r as [m b s]. simpl. intros Hm.
  destruct m as [|[p|p|]|p]; simpl; try lia; try reflexivity.
  - rewrite Pos2Z.inj_xI. apply Z.div_unique with (r := 1); lia.
  - rewrite Pos2Z.inj_xO. apply Z.div_unique with (r := 0); lia.
Qed.

Lemma iter_shr_1_m (p : positive) (r : shr_record) :
  0 <= shr_m r -> shr_m (SpecFloat.iter_pos shr_1 p r) = shr_m r / 2 ^ Zpos p.
Proof.
  revert r. induction p as [p IH|p IH|]; intros r Hr.
  - change (SpecFloat.iter_pos shr_1 p~1 r)
      with (SpecFloat.iter_pos shr_1 p (SpecFloat.iter_pos shr_1 p (shr_1 r))).
    assert (H1 : 0 <= shr_m (shr_1 r)).
    { rewrite shr_1_m by done. apply Z.div_pos; lia. }
    assert (H2 : 0 <= shr_m (SpecFloat.iter_pos shr_1 p (shr_1 r))).
    { rewrite IH by done. apply Z.div_pos; lia. }
    rewrite (IH _ H2), (IH _ H1), shr_1_m by done.
    rewrite !Z.div_div by lia.
    f_equal.
    assert (E : Z.pos p~1 = Z.pos p + Z.pos p + 1) by lia.
    rewrite E, !Z.pow_add_r by lia. change (2 ^ 1) with 2. ring.
  - change (SpecFloat.iter_pos shr_1 p~0 r)
      with (SpecFloat.iter_pos shr_1 p (SpecFloat.iter_pos shr_1 p r)).
    assert (H2 : 0 <= shr_m (SpecFloat.iter_pos shr_1 p r)).
    { rewrite IH by done. apply Z.div_pos; lia. }
    rewrite (IH _ H2), (IH _ Hr).
    rewrite !Z.div_div by lia.
    f_equal.
    assert (E : Z.pos p~0 = Z.pos p + Z.pos p) by lia.
    rewrite E, !Z.pow_add_r by lia. ring.
  - simpl. rewrite shr_1_m by done. reflexivity.
Qed.

(** One rounding shift keeps a mantissa non-negative and its value and
    exponent under the bound [B]. *)
Lemma shr_fexp_bounds (m e : Z) (l : location) (B : Z) :
  0 <= m -> Zdigits2 m + e <= B -> e <= B - 53 -> -1021 <= B ->
  let '(r, e') := shr_fexp Float64.prec Float64.emax m e l in
  0 <= shr_m r <= m /\ Zdigits2 (shr_m r) + e' <= B /\ e' <= B - 53.
Proof.
  intros Hm HD He HB. unfold shr_fexp, shr.
  assert (Hrec : shr_m (shr_record_of_loc m l) = m).
  { destruct l as [|[]]; reflexivity. }
  set (n := fexp Float64.prec Float64.emax (Zdigits2 m + e) - e).
  assert (Hn : e + n <= B - 53).
  { unfold n, fexp, emin, Float64.prec, Float64.emax. lia. }
  destruct n as [|p|p] eqn:En; rewrite ?Hrec.
  - repeat split; lia.
  - rewrite iter_shr_1_m by lia. rewrite Hrec.
    pose proof (Zdigits2_div_pow2 m (Zpos p) Hm ltac:(lia)).
    assert (0 <= m / 2 ^ Z.pos p <= m).
    { split; [apply Z.div_pos; lia|].
      apply Z.div_le_upper_bound; [lia|].
      assert (0 < 2 ^ Z.pos p) by (apply Z.pow_pos_nonneg; lia). nia. }
    repeat split; try lia.
  - repeat split; lia.
Qed.

Lemma round_nearest_even_bounds (m : Z) (l : location) :
  0 <= m -> m <= round_nearest_even m l <= m + 1.
Proof.
  intros Hm. destruct l as [|[]]; simpl; try lia.
  destruct (Z.even m); lia.
Qed.

Lemma binary_round_aux_finite (s : bool) (m e : Z) (l : location) :
  0 <= m -> Zdigits2 m + e <= 1023 -> e <= 970 ->
  forall s', binary_round_aux Float64.prec Float64.emax s m e l <> S754_infinity s'.
Proof.
  intros Hm HD He s'. unfold binary_round_aux.
  pose proof (shr_fexp_bounds m e l 1023 Hm HD ltac:(lia) ltac:(lia)) as H1.
  destruct (shr_fexp Float64.prec Float64.emax m e l) as [r1 e1].
  destruct H1 as ([Hr1 _] & HD1 & He1).
  set (m2 := round_nearest_even (shr_m r1) (loc_of_shr_record r1)).
  pose proof (round_nearest_even_bounds (shr_m r1) (loc_of_shr_record r1) Hr1) as Hm2.
  fold m2 in Hm2.
  assert (HD2 : Zdigits2 m2 + e1 <= 1024).
  { pose proof (Zdigits2_mono m2 (shr_m r1 + 1) ltac:(lia)).
    pose proof (Zdigits2_succ (shr_m r1) Hr1). lia. }
  pose proof (shr_fexp_bounds m2 e1 loc_Exact 1024 ltac:(lia) HD2 ltac:(lia) ltac:(lia)) as H2.
  destruct (shr_fexp Float64.prec Float64.emax m2 e1 loc_Exact) as [r2 e2].
  destruct H2 as (_ & _ & He2).
  destruct (shr_m r2); try discriminate.
  replace (e2 <=? Float64.emax - Float64.prec) with true; [discriminate|].
  symmetry. apply Z.leb_le. unfold Float64.emax, Float64.prec. lia.
Qed.

Lemma SFdiv_core_binary_bounds (m1 m2 : positive) :
  let '(q, e, _) := SFdiv_core_binary Float64.prec Float64.emax (Zpos m1) 0 (Zpos m2) 0 in
  0 <= q /\ e <= 0 /\ Zdigits2 q + e <= Zdigits2 (Zpos m1).
Proof.
  unfold SFdiv_core_binary.
  set (e := Z.min _ _).
  assert (He : e <= 0) by (unfold e; lia).
  set (m' := match 0 - 0 - e with
             | Z.pos _ => Z.shiftl (Z.pos m1) (0 - 0 - e)
             | 0 => Z.pos m1
             | Z.neg _ => 0
             end).
  assert (Hm' : m' = Zpos m1 * 2 ^ (- e)).
  { unfold m'. replace (0 - 0 - e) with (- e) by lia.
    destruct (- e) as [|p|p] eqn:E; try lia.
    rewrite Z.shiftl_mul_pow2 by lia. reflexivity. }
  pose proof (Z_div_mod m' (Zpos m2) ltac:(lia)) as Hdm.
  destruct (Z.div_eucl m' (Z.pos m2)) as [q r].
  destruct Hdm as [Hq Hr].
  assert (Hpow : 0 < 2 ^ (- e)) by (apply Z.pow_pos_nonneg; lia).
  assert (Hq0 : 0 <= q) by nia.
  assert (Hqm : q <= m') by nia.
  repeat split; try lia.
  pose proof (Zdigits2_mono q m' ltac:(lia)).
  assert (Zdigits2 m' = Zdigits2 (Zpos m1) - e).
  { rewrite !Zdigits2_log2 by lia. rewrite Hm'.
    rewrite <- Z.shiftl_mul_pow2 by lia. rewrite Z.log2_shiftl by lia. lia. }
  lia.
Qed.

(** [a / b] raises no [OverflowError] when [|a| < 2^1023]. *)
Lemma int_truediv_finite (a b : Z) :
  b <> 0 -> Z.abs a < 2 ^ 1023 -> exists q, Float64.int_truediv a b = Ok q.
Proof.
  intros Hb Ha. unfold Float64.int_truediv.
  destruct (Z.eqb_spec b 0) as [|_]; [done|].
  destruct (Z.eqb_spec a 0) as [|Ha0]; [eauto|].
  assert (Hfin : forall s', Float64.div (Float64.exact a) (Float64.exact b) <> S754_infinity s').
  { assert (Hd : forall pa pb sa sb s', Zpos pa < 2 ^ 1023 ->
      Float64.div (S754_finite sa pa 0) (S754_finite sb pb 0) <> S754_infinity s').
    { intros pa pb sa sb s' Hpa. unfold Float64.div, SFdiv.
      pose proof (SFdiv_core_binary_bounds pa pb) as Hc.
      destruct (SFdiv_core_binary Float64.prec Float64.emax (Z.pos pa) 0 (Z.pos pb) 0)
        as [[q e] l].
      destruct Hc as (Hq & He & HD).
      apply binary_round_aux_finite; try lia.
      assert (Zdigits2 (Zpos pa) <= 1023); [|lia].
      rewrite Zdigits2_log2 by lia.
      assert (Z.log2 (Zpos pa) < 1023); [|lia].
      apply Z.log2_lt_pow2; lia. }
    destruct a as [|pa|pa], b as [|pb|pb]; try done; intros s'; apply Hd; lia. }
  destruct (Float64.div (Float64.exact a) (Float64.exact b)) eqn:E; eauto.
  exfalso. eapply Hfin. reflexivity.
Qed.

End Binary64.

(** ** The growth-rate pass *)

Section GrowthPass.
Import Api.
Implicit Types (orig cur out fetched : list (PopulationData Z)) (p o c : PopulationData Z).

Lemma annotated_population p o c : annotated p o c -> population c = population o.
Proof.
  unfold annotated. destruct (0 <? population p).
  - intros (g & _ & ->). reflexivity.
  - intros ->. reflexivity.
Qed.

(** The pass never changes a population, so the predecessor it reads is the
    one of the input. *)
Lemma done_upto_population orig cur k j o c :
  done_upto orig cur k -> orig !! j = Some o -> cur !! j = Some c ->
  population c = population o.
Proof.
  intros (Hlen & Hsame & Hdone) Ho Hc.
  destruct (decide (j = 0%nat \/ (k < j)%nat)) as [Hj|Hj].
  - rewrite Hsame in Hc by done. congruence.
  - assert (Hj' : (1 <= j <= k)%nat) by lia.
    assert (is_Some (orig !! (j - 1)%nat)) as [p Hp].
    { apply lookup_lt_is_Some. apply lookup_lt_Some in Ho. lia. }
    destruct (Hdone j p o Hj' Hp Ho) as (c' & Hc' & Hann).
    rewrite Hc in Hc'. injection Hc' as <-. eauto using annotated_population.
Qed.

Lemma growth_step_spec orig cur (a : nat) out :
  (1 <= a)%nat -> done_upto orig cur (a - 1) ->
  growth_step a cur = Ok out -> done_upto orig out a.
Proof.
  intros Ha Hinv. pose proof Hinv as (Hlen & Hsame & Hdone).
  unfold growth_step, Py.getitem.
  destruct (cur !! (a - 1)%nat) as [p'|] eqn:Hp'; [|discriminate].
  destruct (cur !! a) as [o|] eqn:Ho; [|discriminate].
  cbn -[growth_formula Z.ltb].
  assert (Hoo : orig !! a = Some o) by (rewrite <- Hsame by lia; done).
  assert (is_Some (orig !! (a - 1)%nat)) as [p Hp].
  { apply lookup_lt_is_Some. rewrite <- Hlen. by eapply lookup_lt_Some. }
  assert (Hpop : population p' = population p) by eauto using done_upto_population.
  rewrite Hpop.
  assert (Hold : forall j p0 o0, (1 <= j <= a - 1)%nat ->
     orig !! (j - 1)%nat = Some p0 -> orig !! j = Some o0 ->
     forall l : list (PopulationData Z), (forall i, i <> a -> l !! i = cur !! i) ->
     exists c, l !! j = Some c /\ annotated p0 o0 c).
  { intros j p0 o0 Hj Hp0 Ho0 l Hl. rewrite Hl by lia. eauto. }
  destruct (0 <? population p) eqn:Hpos.
  - destruct (growth_formula (population p) (population o)) as [g|] eqn:Hg; [|discriminate].
    cbn. intros [= <-]. split; [by rewrite length_insert|]. split.
    + intros j Hj. rewrite list_lookup_insert_ne by lia. apply Hsame. lia.
    + intros j p0 o0 Hj Hp0 Ho0. destruct (decide (j = a)) as [->|Hne].
      * rewrite list_lookup_insert_eq by (by eapply lookup_lt_Some).
        eexists; split; [done|]. unfold annotated.
        assert (p0 = p) as -> by congruence. assert (o0 = o) as -> by congruence.
        rewrite Hpos. eauto.
      * apply (Hold j p0 o0); [lia|done|done|].
        intros i Hi. by rewrite list_lookup_insert_ne.
  - intros [= <-]. split; [done|]. split.
    + intros j Hj. apply Hsame. lia.
    + intros j p0 o0 Hj Hp0 Ho0. destruct (decide (j = a)) as [->|Hne].
      * exists o. split; [done|]. unfold annotated.
        assert (p0 = p) as -> by congruence. assert (o0 = o) as -> by congruence.
        by rewrite Hpos.
      * apply (Hold j p0 o0); [lia|done|done|done].
Qed.

Lemma for_each_growth_spec orig (n : nat) : forall (a : nat) cur out,
  (1 <= a)%nat -> done_upto orig cur (a - 1) ->
  Py.for_each growth_step (seq a n) cur = Ok out ->
  done_upto orig out (a + n - 1).
Proof.
  induction n as [|n IH]; intros a cur out Ha Hinv; simpl.
  - intros [= <-]. by replace (a + 0 - 1)%nat with (a - 1)%nat by lia.
  - destruct (growth_step a cur) as [cur'|] eqn:Hstep; [|discriminate]. cbn.
    intros Hrest. replace (a + S n - 1)%nat with (S a + n - 1)%nat by lia.
    apply (IH (S a) cur'); [lia| |done].
    replace (S a - 1)%nat with a by lia. eauto using growth_step_spec.
Qed.

Lemma done_upto_start orig : done_upto orig orig 0.
Proof. split; [done|]. split; [done|]. intros; lia. Qed.

Lemma calculate_growth_rate_done fetched out :
  calculate_growth_rate fetched = Ok out ->
  done_upto fetched out (length fetched - 1).
Proof.
  unfold calculate_growth_rate. intros H.
  apply for_each_growth_spec with (orig := fetched) in H; [|lia|apply done_upto_start].
  destruct fetched; [simpl in *; done|]. simpl length in *.
  by replace (1 + (S (length fetched) - 1) - 1)%nat with (S (length fetched) - 1)%nat in H by lia.
Qed.

Lemma growth_step_total orig cur (a : nat) :
  (1 <= a < length orig)%nat -> done_upto orig cur (a - 1) -> rates_defined orig ->
  exists out, growth_step a cur = Ok out.
Proof.
  intros Ha Hinv Hdef. pose proof Hinv as (Hlen & Hsame & Hdone).
  unfold growth_step, Py.getitem.
  destruct (lookup_lt_is_Some_2 cur (a - 1)%nat ltac:(lia)) as [p' Hp'].
  destruct (lookup_lt_is_Some_2 cur a ltac:(lia)) as [o Ho].
  destruct (lookup_lt_is_Some_2 orig (a - 1)%nat ltac:(lia)) as [p Hp].
  rewrite Hp', Ho. cbn -[growth_formula Z.ltb].
  assert (Hoo : orig !! a = Some o) by (rewrite <- Hsame by lia; done).
  assert (Hpop : population p' = population p) by eauto using done_upto_population.
  rewrite Hpop. destruct (0 <? population p) eqn:Hpos; [|eauto].
  destruct (Hdef (a - 1)%nat p o) as [g Hg]; [done| |lia|].
  { by replace (S (a - 1)) with a by lia. }
  rewrite Hg. cbn. eauto.
Qed.

Lemma for_each_growth_total orig (n : nat) : forall (a : nat) cur,
  (1 <= a)%nat -> (a + n <= length orig)%nat -> done_upto orig cur (a - 1) ->
  rates_defined orig ->
  exists out, Py.for_each growth_step (seq a n) cur = Ok out.
Proof.
  induction n as [|n IH]; intros a cur Ha Hn Hinv Hdef; simpl; [eauto|].
  destruct (growth_step_total orig cur a) as [cur' Hstep]; [lia|done|done|].
  rewrite Hstep. cbn. apply (IH (S a)); [lia|lia| |done].
  replace (S a - 1)%nat with a by lia. eauto using growth_step_spec.
Qed.

Lemma calculate_growth_rate_total fetched :
  rates_defined fetched -> exists out, calculate_growth_rate fetched = Ok out.
Proof.
  intros Hdef. unfold calculate_growth_rate.
  destruct fetched as [|d rest] eqn:E; [simpl; eauto|]. rewrite <- E in *.
  apply for_each_growth_total with (orig := fetched);
    [lia|subst; simpl; lia|apply done_upto_start|done].
Qed.

Lemma growth_formula_finite (prev_pop curr_pop : Z) :
  0 < prev_pop < 2 ^ 1023 -> 0 <= curr_pop < 2 ^ 1023 ->
  exists g, growth_formula prev_pop curr_pop = Ok g.
Proof.
  intros Hp Hc. unfold growth_formula.
  assert (Hne : prev_pop <> 0) by (destruct Hp; lia).
  assert (Habs : Z.abs (curr_pop - prev_pop) < 2 ^ 1023).
  { generalize dependent (2 ^ 1023). intros. lia. }
  destruct (int_truediv_finite (curr_pop - prev_pop) prev_pop Hne Habs) as [q Hq].
  rewrite Hq. cbn. unfold Float64.mul_int.
  change (Float64.of_int 100) with (Ok (Float64.round_int 100)). cbn. eauto.
Qed.

Lemma bounded_rates_defined fetched :
  Forall (fun d => 0 <= population d < 2 ^ 1023) fetched -> rates_defined fetched.
Proof.
  intros Hall j p o Hp Ho Hpos.
  pose proof (proj1 (Forall_lookup _ _) Hall) as Hl.
  apply growth_formula_finite; [|by apply (Hl _ _ Ho)].
  specialize (Hl _ _ Hp). simpl in Hl. lia.
Qed.

Lemma calculate_growth_rate_fields fetched out :
  calculate_growth_rate fetched = Ok out ->
  forall (j : nat) o, fetched !! j = Some o ->
    exists c, out !! j = Some c /\ country c = country o /\ year c = year o
              /\ population c = population o.
Proof.
  intros H j o Ho. apply calculate_growth_rate_done in H.
  pose proof H as (Hlen & Hsame & Hdone).
  destruct (decide (j = 0%nat \/ (length fetched - 1 < j)%nat)) as [Hj|Hj].
  - rewrite <- Hsame in Ho by done. eauto.
  - destruct (lookup_lt_is_Some_2 fetched (j - 1)%nat) as [p Hp].
    { apply lookup_lt_Some in Ho. lia. }
    destruct (Hdone j p o ltac:(lia) Hp Ho) as (c & Hc & Hann).
    exists c. split; [done|]. unfold annotated in Hann.
    destruct (0 <? population p); [destruct Hann as (g & _ & ->)|subst c]; done.
Qed.

End GrowthPass.

(** C1.  The growth-rate pass on the series with populations 100, 110, 99
    leaves the first rate unset and sets the others to 10.0 and -10.0.  On
    every list: the pass returns when the populations are non-negative and
    below [2^1023] (no quotient overflows); and whenever it returns, the list
    has the same length, the record at index 0 is untouched, and the record
    at index [i + 1] carries the rate
    [(population[i+1] - population[i]) / population[i] * 100] when
    [population[i] > 0], its growth rate being left as it was when
    [population[i] = 0].  The order of the years plays no part. *)
Theorem calculate_growth_rate_annotates :
  (exists out, Api.calculate_growth_rate example_series = Ok out
     /\ Api.growth_rate <$> out
        = [None; Some (Float64.round_int 10); Some (Float64.round_int (-10))])
  /\ forall fetched : list (Api.PopulationData Z),
      (Forall (fun d => 0 <= Api.population d < 2 ^ 1023) fetched ->
       exists out, Api.calculate_growth_rate fetched = Ok out)
      /\ forall out, Api.calculate_growth_rate fetched = Ok out ->
          length out = length fetched
          /\ out !! 0%nat = fetched !! 0%nat
          /\ forall (i : nat) prev cur,
               fetched !! i = Some prev -> fetched !! S i = Some cur ->
               exists cur', out !! S i = Some cur'
                 /\ (0 < Api.population prev ->
                     exists q rate,
                       Float64.int_truediv (Api.population cur - Api.population prev)
                         (Api.population prev) = Ok q
                       /\ Float64.mul_int q 100 = Ok rate
                       /\ Api.growth_rate cur' = Some rate)
                 /\ (Api.population prev = 0 -> Api.growth_rate cur' = Api.growth_rate cur).
Proof.
  split; [eexists; split; vm_compute; reflexivity|].
  intros fetched. split.
  { intros Hb. by apply calculate_growth_rate_total, bounded_rates_defined. }
  intros out Hout. pose proof (calculate_growth_rate_done _ _ Hout) as (Hlen & Hsame & Hdone).
  split; [done|]. split; [apply Hsame; by left|].
  intros i prev cur Hprev Hcur.
  destruct (Hdone (S i) prev cur) as (c & Hc & Hann).
  { apply lookup_lt_Some in Hcur. lia. }
  { by replace (S i - 1)%nat with i by lia. }
  { done. }
  exists c. split; [done|]. unfold annotated in Hann. split.
  - intros Hpos. apply Z.ltb_lt in Hpos. rewrite Hpos in Hann.
    destruct Hann as (g & Hg & ->). unfold Api.growth_formula in Hg.
    destruct (Float64.int_truediv _ _) as [q|] eqn:Hq; [|discriminate].
    cbn in Hg. eauto.
  - intros Hzero. rewrite Hzero in Hann. simpl in Hann. by subst c.
Qed.

Lemma calculate_growth_rate_annotates_witness :
  Forall (fun d => 0 <= Api.population d < 2 ^ 1023) example_series
  /\ exists out, Api.calculate_growth_rate example_series = Ok out.
Proof.
  assert (Hb : Forall (fun d => 0 <= Api.population d < 2 ^ 1023) example_series).
  { repeat constructor; vm_compute; congruence. }
  split; [exact Hb|].
  exact (proj1 (proj2 calculate_growth_rate_annotates example_series) Hb).
Defined.

(** C10.  The growth-rate pass writes the [growth_rate] field only: the list
    it returns has the length of its input, and the countries, the years and
    the populations, read in order, are those of the input. *)
Theorem calculate_growth_rate_frame (fetched out : list (Api.PopulationData Z)) :
  Api.calculate_growth_rate fetched = Ok out ->
  length out = length fetched
  /\ Api.country <$> out = Api.country <$> fetched
  /\ Api.year <$> out = Api.year <$> fetched
  /\ Api.population <$> out = Api.population <$> fetched.
Proof.
  intros Hout.
  pose proof (calculate_growth_rate_done _ _ Hout) as (Hlen & _ & _).
  pose proof (calculate_growth_rate_fields _ _ Hout) as Hf.
  assert (Hmap : forall {B} (f : Api.PopulationData Z -> B),
    (forall (j : nat) o, fetched !! j = Some o ->
       exists c, out !! j = Some c /\ f c = f o) -> f <$> out = f <$> fetched).
  { intros B f H. apply list_eq. intros j. rewrite !list_lookup_fmap.
    destruct (fetched !! j) as [o|] eqn:Ho.
    - destruct (H j o Ho) as (c & -> & Hc). simpl. by rewrite Hc.
    - apply lookup_ge_None in Ho. rewrite <- Hlen in Ho.
      apply lookup_ge_None in Ho. by rewrite Ho. }
  split; [done|].
  repeat split; apply Hmap; intros j o Ho;
    destruct (Hf j o Ho) as (c & Hc & ? & ? & ?); eauto.
Qed.

Lemma calculate_growth_rate_frame_witness :
  exists out,
    Api.calculate_growth_rate example_series = Ok out
    /\ length out = length example_series
    /\ Api.country <$> out = Api.country <$> example_series
    /\ Api.year <$> out = Api.year <$> example_series
    /\ Api.population <$> out = Api.population <$> example_series.
Proof.
  eexists. split; [vm_compute; reflexivity|].
  apply calculate_growth_rate_frame. vm_compute. reflexivity.
Defined.

(** ** The client: one fetch, and the range fetcher *)

Section Fetch.
Import Api.

Lemma two_or_more (n : nat) : (1 <? Z.of_nat (S (S n))) = true.
Proof. apply Z.ltb_lt. lia. Qed.

Lemma shape_guard_list (x y : value) (rest : list value) :
  shape_guard (VList (x :: y :: rest)) = Ok (Py.truthy y).
Proof.
  unfold shape_guard, Py.len. simpl length. cbn [Py.truthy negb mbind result_bind].
  by rewrite two_or_more.
Qed.

Lemma shape_guard_str (a b : Ascii.ascii) (s : string) :
  shape_guard (VStr (String a (String b s))) = Ok true.
Proof.
  unfold shape_guard, Py.len. simpl String.length.
  cbn [Py.truthy negb mbind result_bind String.eqb].
  by rewrite two_or_more.
Qed.

Lemma shape_guard_dict (x y : string * value) (rest : list (string * value)) :
  shape_guard (VDict (x :: y :: rest)) = Raise KeyError.
Proof.
  unfold shape_guard, Py.len. simpl length. cbn [Py.truthy negb mbind result_bind].
  by rewrite two_or_more.
Qed.

(** On a parsed body, the [try] block returns the observed value when there
    is one; otherwise it falls through or raises an [Exception]. *)
Lemma try_body_parsed (data : value) :
  match observed_value data with
  | Some v => try_body (Response 200 (Ok data)) = Ok (Some v)
  | None => try_body (Response 200 (Ok data)) = Ok None
            \/ exists e, try_body (Response 200 (Ok data)) = Raise e /\ is_Exception e = true
  end.
Proof.
  unfold try_body. change (200 =? 200) with true. cbv iota. cbn [mbind result_bind].
  destruct data as [| b | z | f | s | items | items].
  - try_body_case.
  - destruct b; try_body_case.
  - unfold shape_guard; simpl. destruct (z =? 0); try_body_case.
  - unfold shape_guard; simpl. destruct (SFeqb f Float64.zero); try_body_case.
  - destruct s as [|a [|b s]]; [try_body_case|try_body_case|].
    rewrite shape_guard_str. try_body_case.
  - destruct items as [|x [|y rest]]; [try_body_case|try_body_case|].
    rewrite shape_guard_list.
    destruct y as [| b | z | f | s | obs | kv]; try try_body_case.
    + destruct b; try_body_case.
    + simpl. destruct (z =? 0); try_body_case.
    + simpl. destruct (SFeqb f Float64.zero); try_body_case.
    + destruct s as [|a s]; try_body_case.
    + destruct obs as [|o obs]; [try_body_case|].
      destruct o as [| b | z | f | s | l | kv]; try try_body_case.
      unfold first_value; simpl.
      destruct (Py.assoc "value" kv); try_body_case.
    + destruct kv; try_body_case.
  - destruct items as [|x [|y rest]]; [try_body_case|try_body_case|].
    rewrite shape_guard_dict. try_body_case.
Qed.

Lemma request_reported (country_code : string) (year : Z) (http : http_outcome) :
  (forall e, failure_of http = Some e -> is_Exception e = true) ->
  exists logged,
    request country_code year http
    = Ok (new_record country_code year (reported http), logged).
Proof.
  intros Hexc. unfold request.
  destruct http as [e | status [data | e]]; simpl in *.
  - rewrite (Hexc e eq_refl). eauto.
  - destruct (Z.eqb_spec status 200) as [->|Hs]; [|eauto].
    pose proof (try_body_parsed data) as H.
    destruct (observed_value data) as [v|]; simpl in *.
    + rewrite H. eauto.
    + destruct H as [H | (e & H & He)]; rewrite H; [eauto|]. rewrite He. eauto.
  - destruct (status =? 200); [|eauto]. cbn. rewrite (Hexc e eq_refl). eauto.
Qed.

Lemma yield_valid_positive (completed : list (result (PopulationData value))) :
  Forall (fun d => strictly_positive (population d)) (yield_valid completed).1.
Proof.
  induction completed as [|[d|e] rest IH]; simpl; [constructor| |constructor].
  destruct (population d) as [| b | z | f | s | l | kv] eqn:Hpop; simpl;
    try constructor.
  - destruct b; [|done]. destruct (yield_valid rest) as [ys e']. simpl in *.
    constructor; [by rewrite Hpop|done].
  - destruct (Z.ltb_spec 0 z); [|done]. destruct (yield_valid rest) as [ys e']. simpl in *.
    constructor; [by rewrite Hpop|done].
  - destruct (Float64.gtb f Float64.zero) eqn:Hf; [|done].
    destruct (yield_valid rest) as [ys e']. simpl in *.
    constructor; [by rewrite Hpop|done].
Qed.

End Fetch.

(** C8, counterexample.  A body of three elements is not of the expected
    two-element shape, yet the client reports its first observation, 7, and
    not the sentinel 0. *)
Lemma longer_array_is_accepted :
  ~ expected_shape three_element_body
  /\ Api.get_country_population (Api.init 10 1 0) 0 0 "USA" 2020
       (Api.Response 200 (Ok three_element_body))
     = Ok (Api.mkClient 10 1 0 1, Api.new_record "USA" 2020 (VInt 7), None)
  /\ VInt 7 <> VInt 0.
Proof.
  split; [|split; [vm_compute; reflexivity|discriminate]].
  intros (metadata & items & rest & H & _). discriminate H.
Qed.

(** C8, amended.  Once admitted by the rate limiter, a fetch whose exchange
    fails only with exceptions of class [Exception] (network and parse
    failures are such) raises nothing and returns a record for the country
    and the year asked for.  Its population is the [value] of the first
    observation when the status is 200 and the body is an array of at least
    two elements whose second element is a list starting with an object that
    has a [value] key; it is the sentinel 0 in every other case. *)
Theorem get_country_population_never_raises
    (self self' : Api.PopulationAPIClient) (now woke : Z) (slept : option float)
    (country_code : string) (year : Z) (http : Api.http_outcome) :
  (forall e, failure_of http = Some e -> is_Exception e = true) ->
  Api._rate_limit self now woke = Ok (self', slept) ->
  exists logged,
    Api.get_country_population self now woke country_code year http
    = Ok (self', Api.new_record country_code year (reported http), logged).
Proof.
  intros Hexc Hadm. unfold Api.get_country_population. rewrite Hadm. cbn.
  destruct (request_reported country_code year http Hexc) as [logged ->]. cbn. eauto.
Qed.

Lemma get_country_population_never_raises_witness :
  exists logged,
    Api.get_country_population (Api.init 10 1 0) 0 0 "USA" 2020
      (Api.Response 200 (Raise JSONDecodeError))
    = Ok (Api.mkClient 10 1 0 1, Api.new_record "USA" 2020 (VInt 0), logged).
Proof.
  apply (get_country_population_never_raises (Api.init 10 1 0) (Api.mkClient 10 1 0 1)
           0 0 None "USA" 2020 (Api.Response 200 (Raise JSONDecodeError))).
  - intros e [= <-]. reflexivity.
  - vm_compute. reflexivity.
Defined.

(** C7.  Whatever the exchanges, the completion order, the country and the
    range of years, every record that the range fetcher yields has a
    strictly positive population; in particular none is a sentinel.  On the
    sample exchanges the records of 2001 (status 500), 2002 (a negative
    value) and 2003 (a network failure) are dropped. *)
Theorem get_country_population_range_positive :
  (forall (env : Z -> Api.task_env) (order : list nat) (country_code : string)
          (start_year end_year : Z),
     Forall (fun d => strictly_positive (Api.population d) /\ Api.population d <> VInt 0)
       (Api.get_country_population_range env order country_code start_year end_year).1)
  /\ Api.get_country_population_range example_env [4; 2; 0; 1; 3]%nat "USA" 2000 2004
     = ([Api.new_record "USA" 2004 (VInt 250); Api.new_record "USA" 2000 (VInt 100)], None).
Proof.
  split; [|vm_compute; reflexivity].
  intros env order country_code start_year end_year.
  unfold Api.get_country_population_range.
  eapply Forall_impl; [apply yield_valid_positive|].
  intros d Hd. simpl in Hd. split; [done|]. intros E. rewrite E in Hd. simpl in Hd. lia.
Qed.

(** ** The rate limiter *)

(** *** Elapsed time, in microseconds and as a float *)

Section Elapsed.

Lemma shr_fexp_value (m e : Z) (l : location) :
  0 <= m ->
  exists n, 0 <= n
    /\ snd (shr_fexp Float64.prec Float64.emax m e l) = e + n
    /\ shr_m (fst (shr_fexp Float64.prec Float64.emax m e l)) = m / 2 ^ n.
Proof.
  intros Hm. unfold shr_fexp, shr.
  assert (Hrec : shr_m (shr_record_of_loc m l) = m).
  { destruct l as [|[]]; reflexivity. }
  destruct (fexp Float64.prec Float64.emax (Zdigits2 m + e) - e) as [|p|p].
  - exists 0. simpl. rewrite Hrec, Z.div_1_r. lia.
  - exists (Zpos p). simpl. rewrite iter_shr_1_m by lia. rewrite Hrec. lia.
  - exists 0. simpl. rewrite Hrec, Z.div_1_r. lia.
Qed.

(** The result of rounding [m * 2^e], read as a mantissa [m3] and an
    exponent [e3]: [m3 * 2^e3] is no less than any multiple of [2^e3] below
    [m * 2^e], and exceeds [m * 2^e] by less than [2^e1], the unit of the
    first truncation. *)
Lemma binary_round_aux_value (s : bool) (m e : Z) (l : location) (B : Z) :
  0 <= m -> Zdigits2 m + e <= B -> e <= B - 53 -> -1021 <= B <= 1023 ->
  exists m3 e1 e3,
    binary_round_aux Float64.prec Float64.emax s m e l
    = match m3 with
      | 0 => S754_zero s
      | Zpos p => S754_finite s p e3
      | Zneg _ => S754_nan
      end
    /\ 0 <= m3 /\ e <= e1 <= e3 /\ e1 <= B - 53 /\ e3 <= B - 52
    /\ (forall K, K * 2 ^ (e3 - e) <= m -> K <= m3)
    /\ m3 * 2 ^ (e3 - e) <= m + 2 ^ (e1 - e).
Proof.
  intros Hm HD He HB. unfold binary_round_aux.
  destruct (shr_fexp_value m e l Hm) as (n1 & Hn1 & He1 & Hm1).
  pose proof (shr_fexp_bounds m e l B Hm HD He ltac:(lia)) as H1.
  destruct (shr_fexp Float64.prec Float64.emax m e l) as [r1 e1].
  simpl in He1, Hm1. destruct H1 as ([Hr1 _] & HD1 & He1b).
  set (m2 := round_nearest_even (shr_m r1) (loc_of_shr_record r1)).
  pose proof (round_nearest_even_bounds (shr_m r1) (loc_of_shr_record r1) Hr1) as Hm2.
  fold m2 in Hm2.
  assert (HD2 : Zdigits2 m2 + e1 <= B + 1).
  { pose proof (Zdigits2_mono m2 (shr_m r1 + 1) ltac:(lia)).
    pose proof (Zdigits2_succ (shr_m r1) Hr1). lia. }
  destruct (shr_fexp_value m2 e1 loc_Exact ltac:(lia)) as (n2 & Hn2 & He2 & Hm3).
  pose proof (shr_fexp_bounds m2 e1 loc_Exact (B + 1) ltac:(lia) HD2 ltac:(lia) ltac:(lia)) as H2.
  destruct (shr_fexp Float64.prec Float64.emax m2 e1 loc_Exact) as [r2 e2].
  simpl in He2, Hm3. destruct H2 as ([Hr2 _] & _ & He2b).
  exists (shr_m r2), e1, e2.
  assert (Hp1 : 0 < 2 ^ n1) by (apply Z.pow_pos_nonneg; lia).
  assert (Hp2 : 0 < 2 ^ n2) by (apply Z.pow_pos_nonneg; lia).
  assert (E31 : e2 - e = n1 + n2) by lia.
  assert (E11 : e1 - e = n1) by lia.
  rewrite E31, E11, Z.pow_add_r by lia.
  split.
  { destruct (shr_m r2); try reflexivity.
    replace (e2 <=? Float64.emax - Float64.prec) with true; [reflexivity|].
    symmetry. apply Z.leb_le. unfold Float64.emax, Float64.prec. lia. }
  split; [lia|]. split; [lia|]. split; [lia|]. split; [lia|].
  pose proof (Z.mul_div_le m (2 ^ n1) Hp1) as Hd1.
  pose proof (Z.mul_div_le m2 (2 ^ n2) Hp2) as Hd2.
  rewrite <- Hm1 in Hd1. rewrite <- Hm3 in Hd2.
  split.
  - intros K HK. rewrite Hm3. apply Z.div_le_lower_bound; [lia|].
    assert (K * 2 ^ n2 <= shr_m r1); [|lia].
    rewrite Hm1. apply Z.div_le_lower_bound; [lia|]. lia.
  - nia.
Qed.

Lemma SFdiv_core_binary_value (m1 m2 : positive) :
  let '(q, e, _) := SFdiv_core_binary Float64.prec Float64.emax (Zpos m1) 0 (Zpos m2) 0 in
  e <= 0 /\ e <= Z.max (Zdigits2 (Zpos m1) - Zdigits2 (Zpos m2) - 53) (-1074)
  /\ q = Zpos m1 * 2 ^ (- e) / Zpos m2.
Proof.
  unfold SFdiv_core_binary.
  set (e := Z.min _ _).
  assert (He : e <= 0) by (unfold e; lia).
  assert (He' : e <= Z.max (Zdigits2 (Zpos m1) - Zdigits2 (Zpos m2) - 53) (-1074)).
  { unfold e, fexp, emin, Float64.prec, Float64.emax. lia. }
  set (m' := match 0 - 0 - e with
             | Z.pos _ => Z.shiftl (Z.pos m1) (0 - 0 - e)
             | 0 => Z.pos m1
             | Z.neg _ => 0
             end).
  assert (Hm' : m' = Zpos m1 * 2 ^ (- e)).
  { unfold m'. replace (0 - 0 - e) with (- e) by lia.
    destruct (- e) as [|p|p] eqn:E; try lia.
    rewrite Z.shiftl_mul_pow2 by lia. reflexivity. }
  assert (Hq : fst (Z.div_eucl m' (Zpos m2)) = Zpos m1 * 2 ^ (- e) / Zpos m2).
  { rewrite Hm'. unfold Z.div. by destruct (Z.div_eucl _ _). }
  destruct (Z.div_eucl m' (Z.pos m2)) as [q r]. done.
Qed.

Lemma Zdigits2_le_pow2 (m k : Z) : 0 <= m < 2 ^ k -> 0 <= k -> Zdigits2 m <= k.
Proof.
  intros [Hm Hk] Hk0. destruct (Z.eq_dec m 0) as [->|Hne]; [simpl; lia|].
  rewrite Zdigits2_log2 by lia.
  assert (Z.log2 m < k); [|lia]. apply Z.log2_lt_pow2; lia.
Qed.

(** Whether at least [w] seconds have elapsed, as line 40 tests it on the
    float [total_seconds()], agrees with the count of microseconds. *)
Lemma elapsed_seconds_geb (us w : Z) :
  0 <= us < 2 ^ 63 -> 1 <= w <= 2 ^ 32 ->
  exists time_diff,
    Api.total_seconds us = Ok time_diff
    /\ Float64.geb_int time_diff w = bool_decide (w * 1000000 <= us).
Proof.
  intros Hus Hw. unfold Api.total_seconds, Float64.int_truediv.
  change (1000000 =? 0) with false. cbn [negb].
  destruct (Z.eqb_spec us 0) as [->|Hne].
  { eexists. split; [reflexivity|].
    rewrite bool_decide_eq_false_2 by lia.
    unfold Float64.geb_int, Float64.compare_int.
    destruct (Z.compare_spec 0 w); try lia; reflexivity. }
  destruct us as [|pa|pa]; try lia. clear Hne.
  unfold Float64.exact, Float64.div, SFdiv.
  pose proof (SFdiv_core_binary_value pa 1000000) as Hc.
  destruct (SFdiv_core_binary Float64.prec Float64.emax (Z.pos pa) 0 (Z.pos 1000000) 0)
    as [[q e] l].
  destruct Hc as (He & He' & Hq).
  change (Zdigits2 1000000) with 20 in He'.
  set (s := - e) in *. assert (Hs : 0 <= s) by (unfold s; lia).
  assert (Hps : 0 < 2 ^ s) by (apply Z.pow_pos_nonneg; lia).
  assert (Hq0 : 0 <= q).
  { rewrite Hq. apply Z.div_pos; lia. }
  assert (Hqle : q * 1000000 <= Zpos pa * 2 ^ s).
  { rewrite Hq. rewrite Z.mul_comm. apply Z.mul_div_le. lia. }
  assert (Hqgt : Zpos pa * 2 ^ s < (q + 1) * 1000000).
  { rewrite Hq. pose proof (Z.mul_succ_div_gt (Zpos pa * 2 ^ s) 1000000 ltac:(lia)). lia. }
  destruct (decide (w * 1000000 <= Zpos pa)) as [Hge|Hlt].
  - (* the window has elapsed *)
    rewrite bool_decide_eq_true_2 by done.
    assert (HDq : Zdigits2 q + e <= 44).
    { assert (Zdigits2 q <= 44 + s); [|lia].
      apply Zdigits2_le_pow2; [|lia]. split; [done|].
      rewrite Z.pow_add_r by lia.
      assert (2 ^ 63 * 2 ^ s <= 2 ^ 44 * 2 ^ s * 1000000).
      { change (2 ^ 63) with (2 ^ 44 * 524288). nia. }
      nia. }
    assert (Hd1 : Zdigits2 (Zpos pa) <= 63) by (apply Zdigits2_le_pow2; lia).
    destruct (binary_round_aux_value (xorb false false) q e l 44 Hq0 HDq ltac:(lia) ltac:(lia))
      as (m3 & e1 & e3 & -> & Hm3 & Hee & He1 & He3 & Hlow & _).
    assert (Hp3 : 0 < 2 ^ (- e3)) by (apply Z.pow_pos_nonneg; lia).
    assert (HK : w * 2 ^ (- e3) <= m3).
    { apply Hlow. rewrite <- Z.mul_assoc, <- Z.pow_add_r by lia.
      replace (- e3 + (e3 - e)) with s by (unfold s; lia). nia. }
    destruct m3 as [|p3|p3]; [nia| |lia].
    eexists. split; [reflexivity|].
    unfold Float64.geb_int, Float64.compare_int, Float64.signed_mantissa. simpl xorb. cbv iota.
    destruct (Z.leb_spec 0 e3); [lia|].
    destruct (Z.compare_spec (Zpos p3) (w * 2 ^ (- e3))); try reflexivity; lia.
  - (* the window has not elapsed *)
    rewrite bool_decide_eq_false_2 by done.
    assert (Hpa : Zpos pa < 2 ^ 52).
    { change (2 ^ 52) with (4294967296 * 1048576). change (2 ^ 32) with 4294967296 in Hw. nia. }
    assert (Hd1 : Zdigits2 (Zpos pa) <= 52) by (apply Zdigits2_le_pow2; lia).
    assert (HDq : Zdigits2 q + e <= 32).
    { assert (Zdigits2 q <= 32 + s); [|lia].
      apply Zdigits2_le_pow2; [|lia]. split; [done|].
      rewrite Z.pow_add_r by lia. change (2 ^ 32) with 4294967296 in *. nia. }
    destruct (binary_round_aux_value (xorb false false) q e l 32 Hq0 HDq ltac:(lia) ltac:(lia))
      as (m3 & e1 & e3 & -> & Hm3 & Hee & He1 & He3 & _ & Hup).
    assert (Hp3 : 0 < 2 ^ (- e3)) by (apply Z.pow_pos_nonneg; lia).
    assert (HK : m3 < w * 2 ^ (- e3)).
    { apply Z.nle_gt. intros HK.
      assert (Hp31 : 0 < 2 ^ (e3 - e)) by (apply Z.pow_pos_nonneg; lia).
      assert (H1 : w * 2 ^ s <= m3 * 2 ^ (e3 - e)).
      { replace s with (- e3 + (e3 - e)) by (unfold s; lia).
        rewrite Z.pow_add_r by lia. nia. }
      assert (Hp1 : 0 < 2 ^ (e1 - e)) by (apply Z.pow_pos_nonneg; lia).
      assert (H2 : 2 ^ s = 2 ^ (e1 - e) * 2 ^ (- e1)).
      { rewrite <- Z.pow_add_r by lia. f_equal. unfold s. lia. }
      assert (H3 : 2 ^ 21 <= 2 ^ (- e1)) by (apply Z.pow_le_mono_r; lia).
      change (2 ^ 21) with 2097152 in H3.
      nia. }
    destruct m3 as [|p3|p3]; [| |lia].
    + eexists. split; [reflexivity|].
      unfold Float64.geb_int, Float64.compare_int.
      destruct (Z.compare_spec 0 w); try lia; reflexivity.
    + eexists. split; [reflexivity|].
      unfold Float64.geb_int, Float64.compare_int, Float64.signed_mantissa. simpl xorb. cbv iota.
      destruct (Z.leb_spec 0 e3); [lia|].
      destruct (Z.compare_spec (Zpos p3) (w * 2 ^ (- e3))); try reflexivity; lia.
Qed.

End Elapsed.

(** *** The admission check and the semaphore *)

Section Window.
Import Api.

Lemma iter_xO_digits (p d : positive) :
  Zpos (digits2_pos (Pos.iter xO p d)) = Zpos (digits2_pos p) + Zpos d.
Proof.
  induction d as [|d IH] using Pos.peano_ind.
  - simpl. lia.
  - rewrite Pos.iter_succ. simpl. lia.
Qed.

(** [float(z)] raises no [OverflowError] when [0 <= z < 2^1023]. *)
Lemma of_int_finite (z : Z) :
  0 <= z < 2 ^ 1023 -> Float64.of_int z = Ok (Float64.round_int z).
Proof.
  intros Hz. unfold Float64.of_int.
  assert (Hfin : forall s', Float64.round_int z <> S754_infinity s').
  { intros s'. unfold Float64.round_int, binary_normalize.
    destruct z as [|p|p]; [done| |lia].
    unfold binary_round, shl_align.
    assert (Hd : Zpos (digits2_pos p) <= 1023).
    { change (Zpos (digits2_pos p)) with (Zdigits2 (Zpos p)).
      apply Zdigits2_le_pow2; lia. }
    set (e := fexp Float64.prec Float64.emax (Zpos (digits2_pos p) + 0)).
    assert (He : e <= 970 /\ Zpos (digits2_pos p) <= 53 + e).
    { unfold e, fexp, emin, Float64.prec, Float64.emax. lia. }
    destruct (e - 0) as [|d|d] eqn:E.
    - apply binary_round_aux_finite; simpl; lia.
    - apply binary_round_aux_finite; simpl; lia.
    - apply binary_round_aux_finite; [lia| |lia].
      change (Zdigits2 (Zpos (Pos.iter xO p d))) with (Zpos (digits2_pos (Pos.iter xO p d))).
      rewrite iter_xO_digits. lia. }
  destruct (Float64.round_int z); try done. by destruct (Hfin s).
Qed.

(** The three branches of the admission check, by the microseconds elapsed. *)
Lemma rate_limit_enter_elapsed (self : PopulationAPIClient) (now : Z) :
  0 <= now - last_request_time self < 2 ^ 63 -> 1 <= time_window self <= 2 ^ 32 ->
  exists time_diff,
    total_seconds (now - last_request_time self) = Ok time_diff
    /\ rate_limit_enter self now
       = Ok (if bool_decide (time_window self * 1000000 <= now - last_request_time self)
             then Passed (mkClient (rate_limit self) (time_window self) now 1)
             else if bool_decide (rate_limit self <= request_count self)
             then Suspended (Float64.sub (Float64.round_int (time_window self)) time_diff)
             else Passed (mkClient (rate_limit self) (time_window self)
                            (last_request_time self) (request_count self + 1))).
Proof.
  intros Hus Hw.
  destruct (elapsed_seconds_geb _ _ Hus Hw) as (time_diff & Htd & Hgeb).
  exists time_diff. split; [done|].
  unfold rate_limit_enter. rewrite Htd. cbn. rewrite Hgeb.
  destruct (bool_decide (time_window self * 1000000 <= now - last_request_time self));
    [reflexivity|].
  destruct (Z.leb_spec (rate_limit self) (request_count self)).
  - rewrite bool_decide_eq_true_2 by done.
    unfold Float64.int_sub. rewrite of_int_finite; [reflexivity|].
    change (2 ^ 32) with 4294967296 in Hw.
    assert (4294967296 < 2 ^ 1023) by reflexivity. lia.
  - rewrite bool_decide_eq_false_2 by lia. reflexivity.
Qed.

Lemma fetch_admitted_elapsed (self : PopulationAPIClient) (now : Z) :
  0 <= now - last_request_time self < 2 ^ 63 -> 1 <= time_window self <= 2 ^ 32 ->
  exists time_diff,
    total_seconds (now - last_request_time self) = Ok time_diff
    /\ fetch_admitted self now
       = Ok (if bool_decide (time_window self * 1000000 <= now - last_request_time self)
             then (mkClient (rate_limit self) (time_window self) now 1, InRequest)
             else if bool_decide (rate_limit self <= request_count self)
             then (self, InSleep (Float64.sub (Float64.round_int (time_window self)) time_diff))
             else (mkClient (rate_limit self) (time_window self)
                     (last_request_time self) (request_count self + 1), InRequest)).
Proof.
  intros Hus Hw.
  destruct (rate_limit_enter_elapsed self now Hus Hw) as (time_diff & Htd & Henter).
  exists time_diff. split; [done|]. unfold fetch_admitted. rewrite Henter. cbn.
  by repeat case_bool_decide.
Qed.

(** A call that starts while the semaphore is free and the window is
    neither over nor full goes straight to its request. *)
Lemma fetch_start_free (self : PopulationAPIClient) (sem : Semaphore) (call : nat) (now : Z) :
  0 < sem_value sem ->
  0 <= now - last_request_time self < time_window self * 1000000 ->
  1 <= time_window self <= 2 ^ 32 -> request_count self < rate_limit self ->
  fetch_start self sem call now
  = Ok (mkClient (rate_limit self) (time_window self)
          (last_request_time self) (request_count self + 1),
        mkSemaphore (sem_value sem - 1) (sem_waiters sem), InRequest).
Proof.
  intros Hfree Hus Hw Hroom. unfold fetch_start, acquire.
  apply Z.ltb_lt in Hfree. rewrite Hfree.
  destruct (fetch_admitted_elapsed self now) as (time_diff & _ & ->); [|done|].
  { change (2 ^ 32) with 4294967296 in Hw.
    assert (4294967296 * 1000000 < 2 ^ 63) by reflexivity. lia. }
  rewrite bool_decide_eq_false_2 by lia. rewrite bool_decide_eq_false_2 by lia.
  reflexivity.
Qed.

(** A call that starts while the semaphore is taken waits, whatever the
    clock reads. *)
Lemma fetch_start_taken (self : PopulationAPIClient) (sem : Semaphore) (call : nat) (now : Z) :
  sem_value sem <= 0 ->
  fetch_start self sem call now
  = Ok (self, mkSemaphore (sem_value sem) (sem_waiters sem ++ [call]), AtSemaphore).
Proof.
  intros Htaken. unfold fetch_start, acquire.
  apply Z.ltb_ge in Htaken. by rewrite Htaken.
Qed.

End Window.

(** C9, counterexample.  With [rate_limit = 2] and [time_window = 1], of
    five fetch calls issued at time 0 the third does not reach the admission
    check at time 0: it waits for the semaphore.  When the first response
    comes after 5 seconds, the third call is let in by the semaphore then
    and passes the check at once, the window being reset: it has waited
    5 seconds, not the second that remained of the window, and the limiter
    has not suspended it at all. *)
Lemma slow_response_third_call_not_suspended :
  Api.fetch_all (Api.init 2 1 0) (Api.init_semaphore 2) 0 [0; 0; 0; 0; 0]
  = Ok (Api.mkClient 2 1 0 2, Api.mkSemaphore 0 [2%nat; 3%nat; 4%nat],
        [Api.InRequest; Api.InRequest; Api.AtSemaphore; Api.AtSemaphore; Api.AtSemaphore])
  /\ Api.release (Api.mkSemaphore 0 [2%nat; 3%nat; 4%nat])
     = (Api.mkSemaphore 0 [3%nat; 4%nat], Some 2%nat)
  /\ Api.fetch_admitted (Api.mkClient 2 1 0 2) 5000000
     = Ok (Api.mkClient 2 1 5000000 1, Api.InRequest).
Proof. split; [|split]; vm_compute; reflexivity. Qed.

(** C9, amended.  The admission check is a fixed-window limiter.  Let
    [elapsed] be the microseconds from [last_request_time] to [now], between
    0 and [2^63], and [time_window] be between 1 and [2^32] seconds.  The
    float [time_diff] that line 38 computes compares with every whole number
    of seconds as [elapsed] does.  When [elapsed] is at least [time_window]
    seconds the window is reset (count 0, start [now]) and the call counted,
    without suspension; otherwise, when the count has reached [rate_limit],
    the call suspends for [time_window - time_diff] seconds and, on
    resuming, resets the window (count 0, start the time it woke at) and
    counts itself; otherwise the call is counted at once.

    Fetch calls reach the check only while they hold the semaphore, which
    has [rate_limit] slots.  With [rate_limit = 2] and [time_window = 1], of
    five fetch calls issued within the first second of the window exactly
    two are admitted at once, and the three others wait for the semaphore,
    the third at their head.  The third reaches the check when the first slot
    is released: if the window is not over by then it suspends for what
    remains of the window (0.75 s at 0.25 s, about a microsecond at
    0.999999 s); if the window is over it is admitted at once, the window
    being reset. *)
Theorem rate_limit_fixed_window :
  (forall (self : Api.PopulationAPIClient) (now : Z),
     0 <= now - Api.last_request_time self < 2 ^ 63 ->
     1 <= Api.time_window self <= 2 ^ 32 ->
     exists time_diff,
       Api.total_seconds (now - Api.last_request_time self) = Ok time_diff
       /\ (forall k, 1 <= k <= 2 ^ 32 ->
             Float64.geb_int time_diff k
             = bool_decide (k * 1000000 <= now - Api.last_request_time self))
       /\ (Api.time_window self * 1000000 <= now - Api.last_request_time self ->
           Api.rate_limit_enter self now
           = Ok (Api.Passed (Api.mkClient (Api.rate_limit self) (Api.time_window self)
                               now (0 + 1))))
       /\ (now - Api.last_request_time self < Api.time_window self * 1000000 ->
           Api.rate_limit self <= Api.request_count self ->
           Api.rate_limit_enter self now
           = Ok (Api.Suspended
                   (Float64.sub (Float64.round_int (Api.time_window self)) time_diff)))
       /\ (now - Api.last_request_time self < Api.time_window self * 1000000 ->
           Api.request_count self < Api.rate_limit self ->
           Api.rate_limit_enter self now
           = Ok (Api.Passed (Api.mkClient (Api.rate_limit self) (Api.time_window self)
                               (Api.last_request_time self) (Api.request_count self + 1)))))
  /\ (forall (self : Api.PopulationAPIClient) (woke : Z),
        Api.rate_limit_resume self woke
        = Api.mkClient (Api.rate_limit self) (Api.time_window self) woke (0 + 1))
  /\ (forall start now1 now2 now3 now4 now5 : Z,
        0 <= now1 - start < 1000000 -> 0 <= now2 - start < 1000000 ->
        Api.fetch_all (Api.init 2 1 start) (Api.init_semaphore 2) 0
          [now1; now2; now3; now4; now5]
        = Ok (Api.mkClient 2 1 start 2, Api.mkSemaphore 0 [2%nat; 3%nat; 4%nat],
              [Api.InRequest; Api.InRequest;
               Api.AtSemaphore; Api.AtSemaphore; Api.AtSemaphore]))
  /\ Api.release (Api.mkSemaphore 0 [2%nat; 3%nat; 4%nat])
     = (Api.mkSemaphore 0 [3%nat; 4%nat], Some 2%nat)
  /\ (forall start now : Z,
        (0 <= now - start < 1000000 ->
         exists time_diff,
           Api.total_seconds (now - start) = Ok time_diff
           /\ Api.fetch_admitted (Api.mkClient 2 1 start 2) now
              = Ok (Api.mkClient 2 1 start 2,
                    Api.InSleep (Float64.sub (Float64.round_int 1) time_diff)))
        /\ (1000000 <= now - start < 2 ^ 63 ->
            Api.fetch_admitted (Api.mkClient 2 1 start 2) now
            = Ok (Api.mkClient 2 1 now 1, Api.InRequest)))
  /\ Api.fetch_admitted (Api.mkClient 2 1 0 2) 250000
     = Ok (Api.mkClient 2 1 0 2, Api.InSleep (S754_finite false 6755399441055744 (-53)))
  /\ (exists delay q,
        Api.fetch_admitted (Api.mkClient 2 1 0 2) 999999
        = Ok (Api.mkClient 2 1 0 2, Api.InSleep delay)
        /\ Float64.to_Q delay = Some q
        /\ (999999 # 1000000000000 <= q)%Q /\ (q <= 1000001 # 1000000000000)%Q).
Proof.
  split; [|split; [reflexivity|split; [|split; [reflexivity|split; [|split]]]]].
  - intros self now Hus Hw.
    destruct (rate_limit_enter_elapsed self now Hus Hw) as (time_diff & Htd & ->).
    exists time_diff. split; [done|]. split; [|split; [|split]].
    + intros k Hk. destruct (elapsed_seconds_geb _ k Hus Hk) as (td & Htd' & Hgeb).
      congruence.
    + intros Hge. by rewrite bool_decide_eq_true_2.
    + intros Hlt Hfull. rewrite bool_decide_eq_false_2 by lia.
      by rewrite bool_decide_eq_true_2.
    + intros Hlt Hroom. rewrite bool_decide_eq_false_2 by lia.
      by rewrite bool_decide_eq_false_2 by lia.
  - intros start now1 now2 now3 now4 now5 H1 H2.
    assert (Hw : 1 <= 1 <= 2 ^ 32) by (split; [lia|discriminate]).
    cbn [Api.fetch_all].
    rewrite fetch_start_free by (simpl; lia || done). cbn.
    rewrite fetch_start_free by (simpl; lia || done). cbn.
    rewrite !fetch_start_taken by (simpl; lia). reflexivity.
  - intros start now.
    assert (Hpow : 1000000 < 2 ^ 63) by reflexivity.
    assert (Hw : 1 <= 1 <= 2 ^ 32) by (split; [lia|discriminate]).
    split; intros Hus;
      (destruct (fetch_admitted_elapsed (Api.mkClient 2 1 start 2) now
                   ltac:(simpl; lia) Hw) as (td & Htd & ->)).
    + exists td. split; [exact Htd|].
      rewrite bool_decide_eq_false_2 by (simpl; lia).
      rewrite bool_decide_eq_true_2 by (simpl; lia). reflexivity.
    + rewrite bool_decide_eq_true_2 by (simpl; lia). reflexivity.
  - vm_compute. reflexivity.
  - eexists _, _. split; [vm_compute; reflexivity|].
    split; [vm_compute; reflexivity|]. split; vm_compute; discriminate.
Qed.

Lemma rate_limit_fixed_window_witness :
  Api.rate_limit_enter (Api.mkClient 2 1 0 2) 5000000
  = Ok (Api.Passed (Api.mkClient 2 1 5000000 (0 + 1))).
Proof.
  destruct (proj1 rate_limit_fixed_window (Api.mkClient 2 1 0 2) 5000000)
    as (time_diff & _ & _ & Hreset & _).
  - simpl. split; [lia|reflexivity].
  - simpl. split; [lia|discriminate].
  - apply Hreset. simpl. lia.
Defined.

(** ** Frames and reductions *)

Section Frames.
Context {R : Type}.

(** Rows that all have the keys [ks] make a frame with the columns [ks],
    provided there is a row. *)
Lemma from_dicts_columns (ks : list string) (d : R) (rest : list R) :
  Pandas.columns (Pandas.from_dicts (fun _ => ks) (d :: rest)) = ks.
Proof.
  unfold Pandas.from_dicts. cbn [Pandas.columns foldl app].
  assert (H0 : filter (fun k => k ∉ []) ks = ks).
  { induction ks as [|k ks IH]; [done|].
    rewrite filter_cons_True by apply not_elem_of_nil. by rewrite IH. }
  rewrite H0. clear H0.
  assert (H1 : filter (fun k => k ∉ ks) ks = []).
  { destruct (filter (fun k => k ∉ ks) ks) as [|k l] eqn:E; [done|].
    assert (Hk : k ∈ filter (fun k => k ∉ ks) ks) by (rewrite E; left).
    apply list_elem_of_filter in Hk as [Hk1 Hk2]. done. }
  induction rest as [|r rest IH]; simpl; [done|].
  by rewrite H1, app_nil_r.
Qed.

End Frames.

Lemma foldl_max_spec (l : list Z) : forall x,
  foldl Z.max x l ∈ x :: l /\ forall y, y ∈ x :: l -> y <= foldl Z.max x l.
Proof.
  induction l as [|z l IH]; intros x; simpl.
  - split; [left|]. intros y Hy. apply list_elem_of_singleton in Hy. lia.
  - destruct (IH (Z.max x z)) as [Hin Hub]. split.
    + apply elem_of_cons in Hin as [Hin|Hin]; [|by do 2 right].
      rewrite Hin. destruct (Z.max_spec x z) as [[_ ->]|[_ ->]]; [right; left|left].
    + intros y Hy. apply elem_of_cons in Hy as [->|Hy].
      * specialize (Hub (Z.max x z) ltac:(left)). lia.
      * apply elem_of_cons in Hy as [->|Hy].
        -- specialize (Hub (Z.max x z) ltac:(left)). lia.
        -- apply Hub. by right.
Qed.

Lemma foldl_min_spec (l : list Z) : forall x,
  foldl Z.min x l ∈ x :: l /\ forall y, y ∈ x :: l -> foldl Z.min x l <= y.
Proof.
  induction l as [|z l IH]; intros x; simpl.
  - split; [left|]. intros y Hy. apply list_elem_of_singleton in Hy. lia.
  - destruct (IH (Z.min x z)) as [Hin Hlb]. split.
    + apply elem_of_cons in Hin as [Hin|Hin]; [|by do 2 right].
      rewrite Hin. destruct (Z.min_spec x z) as [[_ ->]|[_ ->]]; [left|right; left].
    + intros y Hy. apply elem_of_cons in Hy as [->|Hy].
      * specialize (Hlb (Z.min x z) ltac:(left)). lia.
      * apply elem_of_cons in Hy as [->|Hy].
        -- specialize (Hlb (Z.min x z) ltac:(left)). lia.
        -- apply Hlb. by right.
Qed.

(** ** The trend analyzer *)

Section Analyzer.
Import Analysis.
Variable fsum : list float -> float.
Implicit Types (data valid : list (Api.PopulationData Z)).

Lemma process_population_data_elem data d :
  d ∈ process_population_data data <-> d ∈ data /\ 0 < Api.population d.
Proof.
  unfold process_population_data. rewrite !list_elem_of_In, filter_In.
  by rewrite Z.ltb_lt.
Qed.

(** What the analyzer returns once the valid records are known. *)
Lemma analyze_valid data first rest :
  process_population_data data = first :: rest ->
  analyze_population_trends fsum data
  = Ok (mkAnalysis (Api.country first)
          (Pandas.min (Api.year <$> first :: rest))
          (Pandas.max (Api.year <$> first :: rest))
          (Pandas.mean fsum (Api.growth_rate <$> first :: rest))
          (Pandas.max (Api.population <$> first :: rest))
          (Pandas.min (Api.population <$> first :: rest))
          (Np.sub (Pandas.max (Api.population <$> first :: rest))
                  (Pandas.min (Api.population <$> first :: rest)))
          (if Np.gtb (Pandas.min (Api.population <$> first :: rest)) (Int 0)
           then Np.mul (Np.truediv
                          (Np.sub (Pandas.max (Api.population <$> first :: rest))
                                  (Pandas.min (Api.population <$> first :: rest)))
                          (Pandas.min (Api.population <$> first :: rest))) (Int 100)
           else Int 0)).
Proof.
  intros Hvalid. unfold analyze_population_trends. rewrite Hvalid.
  unfold Pandas.column, Pandas.has_column. rewrite from_dicts_columns.
  reflexivity.
Qed.

(** The analyzer fails on no valid record and returns on any other input. *)
Lemma analyze_cases data :
  process_population_data data = []
  /\ analyze_population_trends fsum data = Raise no_data
  \/ process_population_data data <> []
     /\ exists a, analyze_population_trends fsum data = Ok a.
Proof.
  destruct (process_population_data data) as [|first rest] eqn:Hvalid.
  - left. split; [done|]. unfold analyze_population_trends. by rewrite Hvalid.
  - right. split; [done|]. rewrite (analyze_valid data first rest Hvalid). eauto.
Qed.

Lemma present_unset (l : list (Api.PopulationData Z)) :
  Forall (fun d => Api.growth_rate d = None) l ->
  Pandas.present (Api.growth_rate <$> l) = [].
Proof.
  induction 1 as [|d l Hd _ IH]; [done|]. unfold Pandas.present in *.
  cbn. rewrite Hd. cbn. exact IH.
Qed.

End Analyzer.

(** C2.  On every input of populations that fit in 64 bits with a record of
    positive population, the analyzer returns; [max_population] and
    [min_population] are populations of valid records that bound the
    population of every valid record; [total_change] is their difference and
    [percentage_change] is [total_change / min_population * 100] in numpy's
    float64 (0 were [min_population] 0).  On the series (2000, 100),
    (2001, 110), (2002, 99) it returns 110, 99, 11 and a percentage within
    0.005 of 11.11. *)
Theorem analyze_population_extremes :
  (forall (fsum : list float -> float) (data : list (Api.PopulationData Z)),
     Forall int64_population data ->
     (exists d, d ∈ data /\ 0 < Api.population d) ->
     exists a hi lo,
       Analysis.analyze_population_trends fsum data = Ok a
       /\ Analysis.max_population a = Int hi
       /\ Analysis.min_population a = Int lo
       /\ (exists d, d ∈ data /\ 0 < Api.population d /\ Api.population d = hi)
       /\ (exists d, d ∈ data /\ 0 < Api.population d /\ Api.population d = lo)
       /\ (forall d, d ∈ data -> 0 < Api.population d -> lo <= Api.population d <= hi)
       /\ Analysis.total_change a = Int (hi - lo)
       /\ Analysis.percentage_change a
          = if lo =? 0 then Int 0
            else Np.mul (Np.truediv (Int (hi - lo)) (Int lo)) (Int 100))
  /\ (forall fsum : list float -> float,
        exists a pc q,
          Analysis.analyze_population_trends fsum example_series = Ok a
          /\ Analysis.max_population a = Int 110
          /\ Analysis.min_population a = Int 99
          /\ Analysis.total_change a = Int 11
          /\ Analysis.percentage_change a = Float pc
          /\ Float64.to_Q pc = Some q
          /\ (11105 # 1000 <= q)%Q /\ (q <= 11115 # 1000)%Q).
Proof.
  split.
  - intros fsum data _ (d0 & Hd0 & Hpos0).
    assert (Hd0' : d0 ∈ Analysis.process_population_data data)
      by (by apply process_population_data_elem).
    destruct (Analysis.process_population_data data) as [|first rest] eqn:Hvalid;
      [by apply not_elem_of_nil in Hd0'|].
    rewrite (analyze_valid fsum data first rest Hvalid).
    cbn [Pandas.max Pandas.min fmap list_fmap].
    set (pops := Api.population <$> rest).
    destruct (foldl_max_spec pops (Api.population first)) as [Hhi_in Hhi].
    destruct (foldl_min_spec pops (Api.population first)) as [Hlo_in Hlo].
    set (hi := foldl Z.max (Api.population first) pops) in *.
    set (lo := foldl Z.min (Api.population first) pops) in *.
    assert (Hpops : forall p, p ∈ Api.population first :: pops <->
                      exists d, d ∈ data /\ 0 < Api.population d /\ Api.population d = p).
    { intros p. change (Api.population first :: pops)
        with (Api.population <$> first :: rest).
      rewrite <- Hvalid, list_elem_of_fmap. split.
      - intros (d & -> & Hd). apply process_population_data_elem in Hd as [Hd Hp]. eauto.
      - intros (d & Hd & Hp & <-). exists d. split; [done|].
        by apply process_population_data_elem. }
    assert (Hlo_pos : 0 < lo).
    { apply Hpops in Hlo_in as (d & _ & Hp & <-). done. }
    eexists _, hi, lo. split; [reflexivity|]. cbn.
    split; [done|]. split; [done|].
    split; [by apply Hpops|]. split; [by apply Hpops|].
    split.
    { intros d Hd Hp. split; [apply Hlo|apply Hhi]; apply Hpops; eauto. }
    split; [done|].
    destruct (Z.eqb_spec lo 0) as [|_]; [lia|].
    apply Z.ltb_lt in Hlo_pos. by rewrite Hlo_pos.
  - intros fsum. eexists _, _, _. split; [vm_compute; reflexivity|].
    cbn. repeat (split; [reflexivity|]). split; vm_compute; discriminate.
Qed.

Lemma analyze_population_extremes_witness :
  exists a hi lo,
    Analysis.analyze_population_trends left_to_right_sum example_series = Ok a
    /\ Analysis.max_population a = Int hi
    /\ Analysis.min_population a = Int lo
    /\ (exists d, d ∈ example_series /\ 0 < Api.population d /\ Api.population d = hi)
    /\ (exists d, d ∈ example_series /\ 0 < Api.population d /\ Api.population d = lo)
    /\ (forall d, d ∈ example_series -> 0 < Api.population d -> lo <= Api.population d <= hi)
    /\ Analysis.total_change a = Int (hi - lo)
    /\ Analysis.percentage_change a
       = if lo =? 0 then Int 0
         else Np.mul (Np.truediv (Int (hi - lo)) (Int lo)) (Int 100).
Proof.
  apply (proj1 analyze_population_extremes left_to_right_sum example_series).
  - repeat constructor.
  - exists (Api.new_record "USA" 2000 100). split; [left|reflexivity].
Defined.

(** C3.  The analyzer fails with the "no data" error exactly when no record
    is left once those whose population is not strictly positive are
    discarded, that is when no record of the input has a positive
    population; on every other input of populations that fit in 64 bits it
    returns, and on such populations it raises nothing else.  It fails so on
    the empty input and on an input of zero populations. *)
Theorem analyze_no_data_iff (fsum : list float -> float) (data : list (Api.PopulationData Z)) :
  (Analysis.analyze_population_trends fsum data = Raise Analysis.no_data
   <-> Analysis.process_population_data data = [])
  /\ (Analysis.process_population_data data = []
      <-> forall d, d ∈ data -> ~ 0 < Api.population d)
  /\ (Forall int64_population data ->
      Analysis.process_population_data data <> []
      -> exists a, Analysis.analyze_population_trends fsum data = Ok a)
  /\ (Forall int64_population data ->
      forall e, Analysis.analyze_population_trends fsum data = Raise e -> e = Analysis.no_data)
  /\ Analysis.analyze_population_trends fsum [] = Raise Analysis.no_data
  /\ Analysis.analyze_population_trends fsum all_zero_series = Raise Analysis.no_data.
Proof.
  pose proof (analyze_cases fsum data) as Hcases.
  split; [|split; [|split; [|split; [|split; reflexivity]]]].
  - destruct Hcases as [[H1 H2]|[H1 [a H2]]]; split; try done.
    rewrite H2. discriminate.
  - split.
    + intros Hnil d Hd Hpos.
      assert (Hin : d ∈ Analysis.process_population_data data)
        by (by apply process_population_data_elem).
      rewrite Hnil in Hin. by apply not_elem_of_nil in Hin.
    + intros Hall. destruct (Analysis.process_population_data data) as [|d rest] eqn:E; [done|].
      assert (Hin : d ∈ Analysis.process_population_data data) by (rewrite E; left).
      apply process_population_data_elem in Hin as [Hin Hpos]. by destruct (Hall d Hin).
  - intros _. destruct Hcases as [[H1 H2]|[H1 H2]]; done.
  - intros _ e He. destruct Hcases as [[H1 H2]|[H1 [a H2]]]; congruence.
Qed.

Lemma analyze_no_data_iff_witness :
  exists a, Analysis.analyze_population_trends left_to_right_sum example_series = Ok a.
Proof.
  apply (proj1 (proj2 (proj2 (analyze_no_data_iff left_to_right_sum example_series)))).
  - repeat constructor.
  - discriminate.
Defined.

(** C4.  Whenever the analyzer returns, [average_growth_rate] is the mean of
    the growth rates that are set among the valid records; when none is set
    it is NaN, not 0: the [else 0] of line 62 is never taken, the frame
    always having a [growth_rate] column.  The series of the single year
    2000, whose record has no growth rate, is such an input. *)
Theorem average_growth_rate_unset_is_nan (fsum : list float -> float) :
  (forall (data : list (Api.PopulationData Z)) a,
     Analysis.analyze_population_trends fsum data = Ok a ->
     Analysis.average_growth_rate a
     = Pandas.mean fsum (Api.growth_rate <$> Analysis.process_population_data data)
     /\ (Forall (fun d => Api.growth_rate d = None) (Analysis.process_population_data data)
         -> Analysis.average_growth_rate a = Float Float64.nan))
  /\ exists a,
       Analysis.analyze_population_trends fsum single_year = Ok a
       /\ Analysis.average_growth_rate a = Float Float64.nan
       /\ Analysis.average_growth_rate a <> Int 0.
Proof.
  split.
  - intros data a Ha.
    destruct (Analysis.process_population_data data) as [|first rest] eqn:Hvalid.
    { unfold Analysis.analyze_population_trends in Ha. by rewrite Hvalid in Ha. }
    rewrite (analyze_valid fsum data first rest Hvalid) in Ha. injection Ha as <-.
    split; [reflexivity|]. intros Hunset. cbn [Analysis.average_growth_rate].
    unfold Pandas.mean. pose proof (present_unset _ Hunset) as E.
    change (Api.growth_rate <$> first :: rest)
      with (Api.growth_rate first :: (Api.growth_rate <$> rest)) in E.
    unfold fmap in E. by rewrite E.
  - eexists. split; [vm_compute; reflexivity|]. cbn. split; [reflexivity|discriminate].
Qed.

(** ** Filtering and export *)

Section Filter.
Import Analysis.
Implicit Types (data : list (Api.PopulationData Z)) (lo hi : option number).

Lemma growth_filter_set lo hi (x : Api.PopulationData Z) (r : float) :
  Api.growth_rate x = Some r -> growth_filter lo hi x = Ok (in_bounds lo hi r).
Proof.
  intros Hr. unfold growth_filter, in_bounds, rate_ge, rate_le. rewrite Hr.
  destruct lo as [[z|b]|]; cbn.
  - destruct (Float64.geb_int r z); [|done]. destruct hi as [[z'|b']|]; done.
  - destruct (Float64.geb r b); [|done]. destruct hi as [[z'|b']|]; done.
  - destruct hi as [[z'|b']|]; done.
Qed.

Lemma growth_filter_unset lo hi (x : Api.PopulationData Z) :
  Api.growth_rate x = None -> is_Some lo \/ is_Some hi ->
  growth_filter lo hi x = Raise TypeError.
Proof.
  intros Hr Hb. unfold growth_filter, rate_ge, rate_le. rewrite Hr.
  destruct lo as [m|]; [done|]. destruct hi as [m|]; [done|].
  destruct Hb as [[? [=]]|[? [=]]].
Qed.

Lemma growth_filter_result lo hi (x : Api.PopulationData Z) :
  (exists b, growth_filter lo hi x = Ok b) \/ growth_filter lo hi x = Raise TypeError.
Proof.
  destruct (Api.growth_rate x) as [r|] eqn:Hr.
  - left. rewrite (growth_filter_set lo hi x r Hr). eauto.
  - destruct lo as [m|]; [right; apply growth_filter_unset; eauto|].
    destruct hi as [m|]; [right; apply growth_filter_unset; eauto|].
    left. unfold growth_filter. cbn. eauto.
Qed.

Lemma filter_raises lo hi data :
  is_Some lo \/ is_Some hi -> (exists d, d ∈ data /\ Api.growth_rate d = None) ->
  filter_by_growth_rate data lo hi = Raise TypeError.
Proof.
  intros Hb (d & Hd & Hnone). unfold filter_by_growth_rate.
  induction data as [|x data IH]; [by apply not_elem_of_nil in Hd|].
  simpl. apply elem_of_cons in Hd as [<-|Hd].
  - by rewrite growth_filter_unset.
  - destruct (growth_filter_result lo hi x) as [[b ->]| ->]; [|done].
    cbn. by rewrite IH.
Qed.

Lemma filter_all_set lo hi data :
  Forall (fun d => is_Some (Api.growth_rate d)) data ->
  filter_by_growth_rate data lo hi
  = Ok (List.filter (fun d => from_option (in_bounds lo hi) false (Api.growth_rate d)) data).
Proof.
  unfold filter_by_growth_rate. induction 1 as [|x data [r Hr] _ IH]; [done|].
  simpl. rewrite (growth_filter_set lo hi x r Hr), IH, Hr. cbn.
  by destruct (in_bounds lo hi r).
Qed.

End Filter.

(** C5.  [filter_by_growth_rate] does not exclude a record whose growth rate
    is unset: as soon as a bound is given and some record has no growth
    rate, the call raises [TypeError] and returns no list, as it does on the
    series of the single year 2000 with [min_growth = 5].  When every record
    has a growth rate it returns the records within the bounds given, in
    order. *)
Theorem filter_by_growth_rate_unset_raises :
  (forall (data : list (Api.PopulationData Z)) (min_growth max_growth : option number),
     (is_Some min_growth \/ is_Some max_growth ->
      (exists d, d ∈ data /\ Api.growth_rate d = None) ->
      Analysis.filter_by_growth_rate data min_growth max_growth = Raise TypeError)
     /\ (Forall (fun d => is_Some (Api.growth_rate d)) data ->
         Analysis.filter_by_growth_rate data min_growth max_growth
         = Ok (List.filter
                 (fun d => from_option (in_bounds min_growth max_growth) false (Api.growth_rate d))
                 data)))
  /\ Analysis.filter_by_growth_rate single_year (Some (Int 5)) None = Raise TypeError.
Proof.
  split; [|reflexivity]. intros data lo hi. split.
  - apply filter_raises.
  - apply filter_all_set.
Qed.

(** C6, counterexample.  The export of the empty list writes one row, and
    that row is empty: it is not the header [country, year, population,
    growth_rate]. *)
Lemma export_empty_has_no_header :
  Analysis.export_to_csv [] "population_data_USA.csv" ∅ !! "population_data_USA.csv"
  = Some [[]]
  /\ [[]] <> [csv_header].
Proof. split; [|discriminate]. unfold Analysis.export_to_csv. by rewrite lookup_insert_eq. Qed.

(** C6, amended.  The export of [N] records writes [N + 1] rows to the file
    named and leaves the other files alone.  When there is a record, the
    first row is the header [country, year, population, growth_rate] and the
    others are the records in order, their fields in that order; when there
    is none, the only row is a header without any field, the columns being
    taken from the records. *)
Theorem export_to_csv_rows (data : list (Api.PopulationData Z)) (filename : string)
    (files : gmap string (list (list Pandas.csv_field))) :
  exists table,
    Analysis.export_to_csv data filename files !! filename = Some table
    /\ length table = S (length data)
    /\ (data <> [] -> table = csv_header :: (csv_row <$> data))
    /\ (data = [] -> table = [[]])
    /\ (forall other, other <> filename ->
          Analysis.export_to_csv data filename files !! other = files !! other).
Proof.
  unfold Analysis.export_to_csv. eexists. split; [apply lookup_insert_eq|].
  split; [|split; [|split]].
  - unfold Pandas.to_csv. simpl. by rewrite !length_fmap.
  - intros Hne. destruct data as [|d rest]; [done|].
    unfold Pandas.to_csv.
    change (fun d0 : Api.PopulationData Z => (Analysis.export_dict d0).*1)
      with (fun _ : Api.PopulationData Z => ["country"; "year"; "population"; "growth_rate"]).
    rewrite from_dicts_columns. reflexivity.
  - intros ->. reflexivity.
  - intros other Hne. by rewrite lookup_insert_ne.
Qed.

Lemma export_to_csv_rows_witness :
  Analysis.export_to_csv example_series "population_data_USA.csv" ∅
    !! "population_data_USA.csv"
  = Some (csv_header :: (csv_row <$> example_series)).
Proof.
  destruct (export_to_csv_rows example_series "population_data_USA.csv" ∅)
    as (table & Hfile & _ & Hrows & _).
  rewrite Hfile. f_equal. apply Hrows. discriminate.
Defined.

(** * Further properties *)

(** ** The rate limiter *)

Lemma rate_limit_enter_cases (self : Api.PopulationAPIClient) (now : Z) (a : Api.admission) :
  Api.rate_limit_enter self now = Ok a ->
  match a with
  | Api.Passed self' =>
      self' = Api.mkClient (Api.rate_limit self) (Api.time_window self) now 1
      \/ Api.request_count self < Api.rate_limit self
         /\ self' = Api.mkClient (Api.rate_limit self) (Api.time_window self)
                      (Api.last_request_time self) (Api.request_count self + 1)
  | Api.Suspended _ => Api.rate_limit self <= Api.request_count self
  end.
Proof.
  unfold Api.rate_limit_enter.
  destruct (Api.total_seconds _) as [time_diff|]; [|discriminate]. cbn.
  destruct (Float64.geb_int time_diff (Api.time_window self)).
  { intros [= <-]. by left. }
  destruct (Z.leb_spec (Api.rate_limit self) (Api.request_count self)).
  - destruct (Float64.int_sub _ _); [|discriminate]. cbn. by intros [= <-].
  - intros [= <-]. right. done.
Qed.

(** X1.  One call of [_rate_limit] on a client whose limit is at least 1
    and whose count is not negative leaves the count between 1 and the
    limit, and never changes [rate_limit] or [time_window].  The start of
    the window is either kept, or moved to the time of the call when the
    call did not sleep, or moved to the time of waking when it slept. *)
Theorem rate_limit_count_bounded
    (self self' : Api.PopulationAPIClient) (now woke : Z) (slept : option float) :
  1 <= Api.rate_limit self -> 0 <= Api.request_count self ->
  Api._rate_limit self now woke = Ok (self', slept) ->
  1 <= Api.request_count self' <= Api.rate_limit self'
  /\ Api.rate_limit self' = Api.rate_limit self
  /\ Api.time_window self' = Api.time_window self
  /\ (Api.last_request_time self' = Api.last_request_time self
      \/ Api.last_request_time self' = now /\ slept = None
      \/ Api.last_request_time self' = woke /\ is_Some slept).
Proof.
  intros Hlimit Hcount. unfold Api._rate_limit.
  destruct (Api.rate_limit_enter self now) as [a|] eqn:Ha; [|discriminate]. cbn.
  apply rate_limit_enter_cases in Ha. destruct a as [s|delay].
  - intros [= <- <-]. destruct Ha as [->|[Hroom ->]]; simpl.
    + split; [lia|]. do 2 (split; [done|]). right. left. done.
    + split; [lia|]. do 2 (split; [done|]). left. done.
  - intros [= <- <-]. simpl. split; [lia|]. do 2 (split; [done|]).
    right. right. eauto.
Qed.

Lemma rate_limit_count_bounded_witness :
  1 <= Api.request_count (Api.mkClient 2 1 0 2) <= Api.rate_limit (Api.mkClient 2 1 0 2)
  /\ Api.rate_limit (Api.mkClient 2 1 0 2) = 2
  /\ Api.time_window (Api.mkClient 2 1 0 2) = 1
  /\ (Api.last_request_time (Api.mkClient 2 1 0 2) = 0
      \/ Api.last_request_time (Api.mkClient 2 1 0 2) = 0 /\ @None float = None
      \/ Api.last_request_time (Api.mkClient 2 1 0 2) = 7 /\ is_Some (@None float)).
Proof.
  apply (rate_limit_count_bounded (Api.mkClient 2 1 0 1) (Api.mkClient 2 1 0 2) 0 7 None).
  - simpl. lia.
  - simpl. lia.
  - vm_compute. reflexivity.
Defined.

Section Limiter.
Import Api.

Lemma enter_within_window (self : PopulationAPIClient) (now : Z) (time_diff : float) :
  total_seconds (now - last_request_time self) = Ok time_diff ->
  Float64.geb_int time_diff (time_window self) = false ->
  request_count self < rate_limit self ->
  rate_limit_enter self now = Ok (Passed (count_request self)).
Proof.
  intros Htd Hwin Hroom. unfold rate_limit_enter. rewrite Htd. cbn. rewrite Hwin.
  apply Z.leb_gt in Hroom. by rewrite Hroom.
Qed.

Lemma enter_at_limit (self : PopulationAPIClient) (now : Z) (time_diff delay : float) :
  total_seconds (now - last_request_time self) = Ok time_diff ->
  Float64.geb_int time_diff (time_window self) = false ->
  rate_limit self <= request_count self ->
  Float64.int_sub (time_window self) time_diff = Ok delay ->
  rate_limit_enter self now = Ok (Suspended delay).
Proof.
  intros Htd Hwin Hfull Hdelay. unfold rate_limit_enter. rewrite Htd. cbn. rewrite Hwin.
  apply Z.leb_le in Hfull. by rewrite Hfull, Hdelay.
Qed.

Lemma burst_suspended (self : PopulationAPIClient) (now : Z) (delay : float) (n : nat) :
  rate_limit_enter self now = Ok (Suspended delay) ->
  burst n self now = Ok (self, replicate n (Some delay)).
Proof.
  intros Hfull. induction n as [|n IH]; [reflexivity|].
  simpl. rewrite Hfull. cbn. rewrite IH. reflexivity.
Qed.

Lemma burst_up_to_limit (now : Z) (time_diff delay : float) (k n : nat) :
  forall self : PopulationAPIClient,
  total_seconds (now - last_request_time self) = Ok time_diff ->
  Float64.geb_int time_diff (time_window self) = false ->
  Float64.int_sub (time_window self) time_diff = Ok delay ->
  request_count self + Z.of_nat n = rate_limit self ->
  burst (n + k) self now
  = Ok (mkClient (rate_limit self) (time_window self) (last_request_time self) (rate_limit self),
        replicate n None ++ replicate k (Some delay)).
Proof.
  induction n as [|n IH]; intros self Htd Hwin Hdelay Hn.
  - simpl. rewrite (burst_suspended self now delay).
    + do 2 f_equal. destruct self; simpl in *. f_equal. lia.
    + eapply enter_at_limit; eauto. lia.
  - simpl. rewrite (enter_within_window self now time_diff) by (done || lia). cbn.
    rewrite (IH (count_request self)); [done|done|done|done|simpl; lia].
Qed.

End Limiter.

(** X2.  Calls that enter [_rate_limit] at one reading of the clock inside
    the current window are let through without delay until the count
    reaches the limit, the count going up by one with each of them; every
    further call is put to sleep, all for the same delay
    [time_window - time_diff], and leaves the client as it is until it
    wakes. *)
Theorem burst_admits_up_to_limit
    (self : Api.PopulationAPIClient) (now : Z) (time_diff delay : float) (k : nat) :
  Api.total_seconds (now - Api.last_request_time self) = Ok time_diff ->
  Float64.geb_int time_diff (Api.time_window self) = false ->
  Float64.int_sub (Api.time_window self) time_diff = Ok delay ->
  Api.request_count self <= Api.rate_limit self ->
  Api.burst (Z.to_nat (Api.rate_limit self - Api.request_count self) + k) self now
  = Ok (Api.mkClient (Api.rate_limit self) (Api.time_window self)
          (Api.last_request_time self) (Api.rate_limit self),
        replicate (Z.to_nat (Api.rate_limit self - Api.request_count self)) None
        ++ replicate k (Some delay)).
Proof.
  intros Htd Hwin Hdelay Hcount.
  apply (burst_up_to_limit now time_diff); [done|done|done|lia].
Qed.

Lemma burst_admits_up_to_limit_witness :
  Api.burst (Z.to_nat (2 - 0) + 3) (Api.mkClient 2 1 0 0) 0
  = Ok (Api.mkClient 2 1 0 2,
        replicate (Z.to_nat (2 - 0)) None
        ++ replicate 3 (Some (S754_finite false 4503599627370496 (-52)))).
Proof.
  apply (burst_admits_up_to_limit (Api.mkClient 2 1 0 0) 0 (S754_zero false)
           (S754_finite false 4503599627370496 (-52)) 3).
  - vm_compute. reflexivity.
  - vm_compute. reflexivity.
  - vm_compute. reflexivity.
  - simpl. lia.
Defined.

(** X3.  While the window is full every call that enters [_rate_limit] is
    put to sleep for the same delay and leaves the client untouched,
    however many there are.  When they wake, each one sets the count back
    to 0 before adding itself (lines 46-48): once all of them have run the
    count is 1 and the window starts at the last waking, whatever their
    number. *)
Theorem suspended_calls_count_as_one
    (self : Api.PopulationAPIClient) (now : Z) (delay : float) (n : nat) :
  Api.rate_limit_enter self now = Ok (Api.Suspended delay) ->
  Api.burst n self now = Ok (self, replicate n (Some delay))
  /\ forall (wokes : list Z) (last : Z),
       foldl Api.rate_limit_resume self (wokes ++ [last])
       = Api.mkClient (Api.rate_limit self) (Api.time_window self) last 1.
Proof.
  intros Hfull. split.
  - induction n as [|n IH]; [reflexivity|].
    simpl. rewrite Hfull. cbn. rewrite IH. reflexivity.
  - intros wokes last. rewrite foldl_app. simpl.
    unfold Api.rate_limit_resume at 1. unfold Api.count_request, Api.with_window. simpl.
    assert (Hkeep : forall l s, Api.rate_limit (foldl Api.rate_limit_resume s l) = Api.rate_limit s
                             /\ Api.time_window (foldl Api.rate_limit_resume s l) = Api.time_window s).
    { induction l as [|w l IH]; intros s; [done|]. simpl.
      destruct (IH (Api.rate_limit_resume s w)) as [-> ->]. done. }
    destruct (Hkeep wokes self) as [-> ->]. reflexivity.
Qed.

Lemma suspended_calls_count_as_one_witness :
  Api.burst 4 (Api.mkClient 2 1 0 2) 250000
  = Ok (Api.mkClient 2 1 0 2,
        replicate 4 (Some (S754_finite false 6755399441055744 (-53))))
  /\ forall (wokes : list Z) (last : Z),
       foldl Api.rate_limit_resume (Api.mkClient 2 1 0 2) (wokes ++ [last])
       = Api.mkClient 2 1 last 1.
Proof.
  apply (suspended_calls_count_as_one (Api.mkClient 2 1 0 2) 250000). vm_compute. reflexivity.
Defined.

(** ** More on one fetch *)

(** ** The request of a fetch *)

Lemma try_body_raises (http : Api.http_outcome) (e : exn) :
  Api.try_body http = Raise e -> is_Exception e = false -> failure_of http = Some e.
Proof.
  destruct http as [e' | status [data | e']].
  - simpl. by intros [= ->].
  - destruct (Z.eqb_spec status 200) as [->|Hs].
    + pose proof (try_body_parsed data) as H.
      intros Hr Hexc. destruct (observed_value data).
      * rewrite H in Hr. discriminate.
      * destruct H as [H | (e' & H & He')]; rewrite H in Hr; [discriminate|].
        injection Hr as ->. congruence.
    + unfold Api.try_body. apply Z.eqb_neq in Hs. rewrite Hs. discriminate.
  - simpl. destruct (status =? 200); [|discriminate]. cbn. by intros [= ->].
Qed.

(** X4.  The request part of [get_country_population] (lines 64-85)
    raises exactly when the exchange raised, inside the [try] block, an
    exception that is not an [Exception] (a cancellation): it then lets
    that same exception through, and raises in no other case. *)
Theorem request_raises_iff (country_code : string) (year : Z) (http : Api.http_outcome) (e : exn) :
  Api.request country_code year http = Raise e
  <-> failure_of http = Some e /\ is_Exception e = false.
Proof.
  unfold Api.request. split.
  - destruct (Api.try_body http) as [[v|]|e'] eqn:Hbody; try discriminate.
    destruct (is_Exception e') eqn:He'; [discriminate|]. intros [= ->].
    split; [|done]. by apply try_body_raises.
  - intros [Hf He]. destruct http as [e' | status [data | e']]; simpl in *; try discriminate.
    + injection Hf as ->. by rewrite He.
    + destruct (status =? 200); [|discriminate]. injection Hf as ->. cbn. by rewrite He.
Qed.

(** X5.  Whenever the request part of [get_country_population] returns,
    the record carries the country code and the year that were asked for
    and no growth rate; if an error was logged, it is an [Exception] and
    the record is the sentinel with population 0. *)
Theorem request_logs_with_sentinel (country_code : string) (year : Z)
    (http : Api.http_outcome) (d : Api.PopulationData value) (logged : option exn) :
  Api.request country_code year http = Ok (d, logged) ->
  Api.country d = country_code /\ Api.year d = year /\ Api.growth_rate d = None
  /\ forall e, logged = Some e -> Api.population d = VInt 0 /\ is_Exception e = true.
Proof.
  unfold Api.request.
  destruct (Api.try_body http) as [[v|]|e'] eqn:Hbody.
  - intros [= <- <-]. do 3 (split; [done|]). discriminate.
  - intros [= <- <-]. do 3 (split; [done|]). discriminate.
  - destruct (is_Exception e') eqn:He'; [|discriminate].
    intros [= <- <-]. do 3 (split; [done|]). intros e [= <-]. done.
Qed.

Lemma request_logs_with_sentinel_witness :
  Api.country (Api.new_record "USA" 2020 (VInt 0)) = "USA"
  /\ Api.year (Api.new_record "USA" 2020 (VInt 0)) = 2020
  /\ Api.growth_rate (Api.new_record "USA" 2020 (VInt 0)) = None
  /\ forall e, Some ClientError = Some e ->
       Api.population (Api.new_record "USA" 2020 (VInt 0)) = VInt 0 /\ is_Exception e = true.
Proof.
  apply (request_logs_with_sentinel "USA" 2020 (Api.GetRaises ClientError)). reflexivity.
Defined.

Section RequestMore.

Lemma length_append (s t : string) :
  String.length (s +:+ t) = (String.length s + String.length t)%nat.
Proof. induction s as [|a s IH]; simpl; [done|]. by rewrite IH. Qed.

Lemma append_cancel_r (s1 s2 t : string) : s1 +:+ t = s2 +:+ t -> s1 = s2.
Proof.
  revert s2. induction s1 as [|a s1 IH]; intros [|b s2]; simpl.
  - done.
  - intros H. apply (f_equal String.length) in H. simpl in H.
    rewrite ?length_append in H. simpl in H. exfalso. lia.
  - intros H. apply (f_equal String.length) in H. simpl in H.
    rewrite ?length_append in H. simpl in H. exfalso. lia.
  - intros [= -> H]. f_equal. by apply IH.
Qed.

End RequestMore.

(** X6.  The URL of a request (line 64) determines the country code, and
    its query parameters (lines 65-68) determine the year: two fetches are
    sent to the same URL only for the same country code, and with the same
    parameters only for the same year. *)
Theorem request_identifies_fetch (c1 c2 : string) (y1 y2 : Z) :
  (Request.url c1 = Request.url c2 <-> c1 = c2)
  /\ (Request.params y1 = Request.params y2 <-> y1 = y2).
Proof.
  split; (split; [|by intros ->]).
  - unfold Request.url. intros H.
    apply String.app_inj in H. apply String.app_inj in H.
    by apply append_cancel_r in H.
  - unfold Request.params. intros [= H]. by apply (inj pretty) in H.
Qed.

(** ** The range fetcher *)

(** ** More on the range fetcher *)


Section Range.
Import Api.

Lemma range_lookup (a b : Z) (i : nat) (y : Z) :
  Py.range a b !! i = Some y <-> y = a + Z.of_nat i /\ a + Z.of_nat i < b.
Proof.
  unfold Py.range. rewrite list_lookup_fmap. split.
  - destruct (seq 0 (Z.to_nat (b - a)) !! i) as [j|] eqn:Hj; [|done].
    apply lookup_seq in Hj as [-> Hlt]. simpl. intros [= <-]. lia.
  - intros [-> Hlt]. rewrite (lookup_seq_lt 0 _ i) by lia. done.
Qed.

(** The outcome of the task at position [i], when there is one. *)
Lemma task_lookup (env : Z -> task_env) (country_code : string) (start_year end_year : Z)
    (i : nat) (r : result (PopulationData value)) :
  ((fun year =>
      let e := env year in
      (fun r => snd (fst r)) <$>
        get_country_population (env_self e) (env_now e) (env_woke e)
          country_code year (env_http e))
     <$> Py.range start_year (end_year + 1)) !! i = Some r ->
  let year := start_year + Z.of_nat i in
  year <= end_year
  /\ r = (fun r => snd (fst r)) <$>
           get_country_population (env_self (env year)) (env_now (env year))
             (env_woke (env year)) country_code year (env_http (env year)).
Proof.
  rewrite list_lookup_fmap.
  destruct (Py.range start_year (end_year + 1) !! i) as [y|] eqn:Hy; [|done].
  apply range_lookup in Hy as [-> Hlt]. simpl. intros [= <-]. split; [lia|done].
Qed.

Lemma get_country_population_record (self : PopulationAPIClient) (now woke : Z)
    (country_code : string) (year : Z) (http : http_outcome) (d : PopulationData value) :
  (fun r => snd (fst r)) <$> get_country_population self now woke country_code year http = Ok d ->
  exists logged, request country_code year http = Ok (d, logged).
Proof.
  unfold get_country_population.
  destruct (_rate_limit self now woke) as [[self' slept]|]; [|discriminate]. cbn.
  destruct (request country_code year http) as [[d' logged]|]; [|discriminate]. cbn.
  intros [= <-]. eauto.
Qed.

Lemma request_new_record (country_code : string) (year : Z) (http : http_outcome)
    (d : PopulationData value) (logged : option exn) :
  request country_code year http = Ok (d, logged) ->
  exists v, d = new_record country_code year v.
Proof.
  unfold request. destruct (try_body http) as [[v|]|e].
  - intros [= <- <-]. eauto.
  - intros [= <- <-]. eauto.
  - destruct (is_Exception e); [|discriminate]. intros [= <- <-]. eauto.
Qed.

Lemma yield_valid_app (l1 l2 : list (result (PopulationData value))) :
  yield_valid (l1 ++ l2)
  = match (yield_valid l1).2 with
    | None => ((yield_valid l1).1 ++ (yield_valid l2).1, (yield_valid l2).2)
    | Some e => yield_valid l1
    end.
Proof.
  induction l1 as [|[d|e] l1 IH]; simpl.
  - by destruct (yield_valid l2).
  - destruct (Py.gt_zero (population d)) as [[]|]; [|done|done].
    rewrite IH. destruct (yield_valid l1) as [ys [e|]]; simpl; [done|].
    by destruct (yield_valid l2).
  - done.
Qed.

Lemma as_completed_app {A} (o1 o2 : list nat) (tasks : list A) :
  as_completed (o1 ++ o2) tasks = as_completed o1 tasks ++ as_completed o2 tasks.
Proof. unfold as_completed. apply omap_app. Qed.

(** The years of what is yielded are those of tasks listed in [order], in
    that order. *)
Lemma yield_valid_years (tasks : list (result (PopulationData value))) (start_year : Z) :
  (forall (i : nat) d, tasks !! i = Some (Ok d) -> year d = start_year + Z.of_nat i) ->
  forall order, exists idx,
    idx `sublist_of` order
    /\ year <$> (yield_valid (as_completed order tasks)).1
       = (fun i : nat => start_year + Z.of_nat i) <$> idx.
Proof.
  intros Hyear. induction order as [|i order (idx & Hsub & Hidx)].
  - exists []. done.
  - assert (Hcons : as_completed (i :: order) tasks
                    = match tasks !! i with
                      | Some t => t :: as_completed order tasks
                      | None => as_completed order tasks
                      end) by reflexivity.
    rewrite Hcons. clear Hcons.
    set (rest := as_completed order tasks) in *.
    destruct (tasks !! i) as [[d|e]|] eqn:Hi; cbn [yield_valid].
    + destruct (Py.gt_zero (population d)) as [[]|].
      * destruct (yield_valid rest) as [ys e'] eqn:E.
        exists (i :: idx). split; [by constructor|].
        simpl in *. f_equal; [by apply Hyear|exact Hidx].
      * exists idx. split; [by constructor|done].
      * exists []. split; [apply sublist_nil_l|done].
    + exists []. split; [apply sublist_nil_l|done].
    + exists idx. split; [by constructor|done].
Qed.

End Range.

(** X7.  [get_country_population_range] yields at most one record per
    completed task; every record yielded is for the country asked, for a
    year between [start_year] and [end_year], and has no growth rate; no
    year is yielded twice when no task completes twice; and nothing is
    yielded, without error, when [end_year < start_year]. *)
Theorem range_fetcher_yields_tasks (env : Z -> Api.task_env) (order : list nat)
    (country_code : string) (start_year end_year : Z) :
  let fetched := Api.get_country_population_range env order country_code start_year end_year in
  (length fetched.1 <= length order)%nat
  /\ Forall (fun d => Api.country d = country_code
                      /\ start_year <= Api.year d <= end_year
                      /\ Api.growth_rate d = None) fetched.1
  /\ (NoDup order -> NoDup (Api.year <$> fetched.1))
  /\ (end_year < start_year -> fetched = ([], None)).
Proof.
  unfold Api.get_country_population_range. cbv zeta.
  set (tasks := _ <$> Py.range start_year (end_year + 1)).
  assert (Htask : forall (i : nat) d, tasks !! i = Some (Ok d) ->
            Api.year d = start_year + Z.of_nat i /\ Api.country d = country_code
            /\ start_year + Z.of_nat i <= end_year /\ Api.growth_rate d = None).
  { intros i d Hi. apply task_lookup in Hi as [Hle Hr]. symmetry in Hr.
    apply get_country_population_record in Hr as [logged Hr].
    apply request_new_record in Hr as [v ->]. done. }
  destruct (yield_valid_years tasks start_year (fun i d H => proj1 (Htask i d H)) order)
    as (idx & Hsub & Hidx).
  split; [|split; [|split]].
  - apply (f_equal length) in Hidx. rewrite !length_fmap in Hidx. rewrite Hidx.
    by apply sublist_length.
  - apply Forall_forall. intros d Hd.
    assert (Hin : Ok d ∈ Api.as_completed order tasks).
    { clear -Hd. induction (Api.as_completed order tasks) as [|[d'|e] l IH]; simpl in *;
        [by apply not_elem_of_nil in Hd| |by apply not_elem_of_nil in Hd].
      destruct (Py.gt_zero (Api.population d')) as [[]|]; simpl in *.
      - destruct (Api.yield_valid l) as [ys e']. simpl in *.
        apply elem_of_cons in Hd as [->|Hd]; [left|right; auto].
      - right; auto.
      - by apply not_elem_of_nil in Hd. }
    unfold Api.as_completed in Hin. apply list_elem_of_omap in Hin as (i & _ & Hi).
    destruct (Htask i d Hi) as (Hy & Hc & Hle & Hg). rewrite Hy. repeat split; try done; lia.
  - intros Hnd. rewrite Hidx. apply NoDup_fmap_2.
    + intros i j Hij. lia.
    + by eapply sublist_NoDup.
  - intros Hempty. clear Htask Hsub Hidx. unfold tasks, Py.range.
    replace (Z.to_nat (end_year + 1 - start_year)) with 0%nat by lia. simpl.
    induction order as [|i order IH]; [done|]. unfold Api.as_completed in *. simpl. exact IH.
Qed.

(** X8.  When the task of a year of the range answers 200 with a body of
    the accepted shape whose value cannot be compared with 0 (JSON null, a
    string, a list), the test [data.population > 0] of line 111 raises
    [TypeError]: the generator ends there with what it had yielded before,
    and the tasks completing later yield nothing. *)
Theorem null_value_ends_range (env : Z -> Api.task_env) (before rest : list nat) (i : nat)
    (country_code : string) (start_year end_year : Z)
    (yielded : list (Api.PopulationData value)) (data v : value)
    (self' : Api.PopulationAPIClient) (slept : option float) :
  let year := start_year + Z.of_nat i in
  year <= end_year ->
  Api._rate_limit (Api.env_self (env year)) (Api.env_now (env year)) (Api.env_woke (env year))
    = Ok (self', slept) ->
  Api.env_http (env year) = Api.Response 200 (Ok data) ->
  observed_value data = Some v ->
  Py.gt_zero v = Raise TypeError ->
  Api.get_country_population_range env before country_code start_year end_year
    = (yielded, None) ->
  Api.get_country_population_range env (before ++ i :: rest) country_code start_year end_year
    = (yielded, Some TypeError).
Proof.
  intros year Hle Hadm Hhttp Hobs Hgt. unfold Api.get_country_population_range. cbv zeta.
  set (tasks := _ <$> Py.range start_year (end_year + 1)).
  intros Hbefore. rewrite as_completed_app, yield_valid_app, Hbefore. cbn [fst snd].
  assert (Htask : tasks !! i
                  = Some (Ok (Api.new_record country_code year v))).
  { unfold tasks. rewrite list_lookup_fmap.
    rewrite (proj2 (range_lookup start_year (end_year + 1) i year)) by (split; [done|lia]).
    cbn [fmap option_fmap option_map]. f_equal. fold year.
    unfold Api.get_country_population. rewrite Hadm, Hhttp. cbn [mbind result_bind].
    unfold Api.request. pose proof (try_body_parsed data) as Hbody.
    rewrite Hobs in Hbody. rewrite Hbody. reflexivity. }
  assert (Hcons : Api.as_completed (i :: rest) tasks
                  = Ok (Api.new_record country_code year v) :: Api.as_completed rest tasks).
  { unfold Api.as_completed. simpl. by rewrite Htask. }
  rewrite Hcons. cbn [Api.yield_valid Api.population Api.new_record]. rewrite Hgt.
  cbn [fst snd]. by rewrite app_nil_r.
Qed.

Lemma null_value_ends_range_witness :
  Api.get_country_population_range null_env ([0%nat] ++ 1%nat :: [2%nat]) "USA" 2000 2002
  = ([Api.new_record "USA" 2000 (VInt 100)], Some TypeError).
Proof.
  apply (null_value_ends_range null_env [0%nat] [2%nat] 1 "USA" 2000 2002
           [Api.new_record "USA" 2000 (VInt 100)] (body_with VNone) VNone
           (Api.mkClient 10 1 0 1) None).
  - vm_compute. discriminate.
  - vm_compute. reflexivity.
  - reflexivity.
  - reflexivity.
  - reflexivity.
  - vm_compute. reflexivity.
Defined.

(** ** Signs of rounded results *)

Lemma binary_round_aux_sign (s : bool) (m e : Z) (l : location) :
  0 <= m -> has_sign s (binary_round_aux Float64.prec Float64.emax s m e l).
Proof.
  intros Hm. unfold binary_round_aux.
  set (B := Z.max (Z.max (Zdigits2 m + e) (e + 53)) (-1021)).
  pose proof (shr_fexp_bounds m e l B Hm ltac:(lia) ltac:(lia) ltac:(lia)) as H1.
  destruct (shr_fexp Float64.prec Float64.emax m e l) as [r1 e1].
  destruct H1 as ([Hr1 _] & HD1 & He1).
  set (m2 := round_nearest_even (shr_m r1) (loc_of_shr_record r1)).
  pose proof (round_nearest_even_bounds (shr_m r1) (loc_of_shr_record r1) Hr1) as Hm2.
  fold m2 in Hm2.
  set (B2 := Z.max (Z.max (Zdigits2 m2 + e1) (e1 + 53)) (-1021)).
  pose proof (shr_fexp_bounds m2 e1 loc_Exact B2 ltac:(lia) ltac:(lia) ltac:(lia) ltac:(lia)) as H2.
  destruct (shr_fexp Float64.prec Float64.emax m2 e1 loc_Exact) as [r2 e2].
  destruct H2 as ([Hr2 _] & _ & _).
  destruct (shr_m r2) as [|p|p]; [done| |lia].
  by destruct (e2 <=? Float64.emax - Float64.prec).
Qed.

Lemma int_truediv_sign (a b : Z) (q : float) :
  0 < b -> Float64.int_truediv a b = Ok q ->
  (a = 0 -> q = S754_zero false) /\ (0 < a -> has_sign false q) /\ (a < 0 -> has_sign true q).
Proof.
  intros Hb. unfold Float64.int_truediv.
  destruct (Z.eqb_spec b 0) as [|_]; [lia|].
  destruct (Z.eqb_spec a 0) as [->|Ha].
  { intros [= <-]. split; [|lia]. intros _. f_equal. apply Z.ltb_ge. lia. }
  assert (Hs : forall pa pb sa,
            has_sign sa (Float64.div (S754_finite sa pa 0) (S754_finite false pb 0))).
  { intros pa pb sa. unfold Float64.div, SFdiv.
    pose proof (SFdiv_core_binary_bounds pa pb) as Hc.
    destruct (SFdiv_core_binary Float64.prec Float64.emax (Z.pos pa) 0 (Z.pos pb) 0)
      as [[m e] l].
    destruct Hc as (Hm & _ & _). rewrite xorb_false_r. by apply binary_round_aux_sign. }
  destruct a as [|pa|pa], b as [|pb|pb]; try lia; simpl Float64.exact;
    specialize (Hs pa pb); intros Hq.
  - specialize (Hs false). destruct (Float64.div _ _); injection Hq as <- || discriminate Hq;
      (split; [lia|split; [done|lia]]).
  - specialize (Hs true). destruct (Float64.div _ _); injection Hq as <- || discriminate Hq;
      (split; [lia|split; [lia|done]]).
Qed.

Lemma mul_hundred_sign (x : float) (s : bool) :
  has_sign s x -> has_sign s (Float64.mul x (Float64.round_int 100)).
Proof.
  change (Float64.round_int 100) with (S754_finite false 7036874417766400 (-46)).
  destruct x as [s'|s'| |s' m e]; simpl; try done.
  - intros <-. by rewrite xorb_false_r.
  - intros <-. by rewrite xorb_false_r.
  - intros <-. rewrite xorb_false_r. apply binary_round_aux_sign. lia.
Qed.

Lemma has_sign_false_geb (x : float) : has_sign false x -> Float64.geb x Float64.zero = true.
Proof. destruct x as [s|s| |s m e]; simpl; try done; by intros ->. Qed.

Lemma has_sign_true_leb (x : float) : has_sign true x -> Float64.leb x Float64.zero = true.
Proof. destruct x as [s|s| |s m e]; simpl; try done; by intros ->. Qed.

Lemma has_sign_not_nan (x : float) (s : bool) : has_sign s x -> Float64.is_nan x = false.
Proof. by destruct x. Qed.

(** X9.  The growth rate that line 140 computes from a positive previous
    population is never NaN; it is [+0.0] when the population did not
    change, is [>= 0] when it did not fall and [<= 0] when it did not
    rise. *)
Theorem growth_rate_sign (prev_pop curr_pop : Z) (rate : float) :
  0 < prev_pop ->
  Api.growth_formula prev_pop curr_pop = Ok rate ->
  Float64.is_nan rate = false
  /\ (curr_pop = prev_pop -> rate = S754_zero false)
  /\ (prev_pop <= curr_pop -> Float64.geb rate Float64.zero = true)
  /\ (curr_pop <= prev_pop -> Float64.leb rate Float64.zero = true).
Proof.
  intros Hprev. unfold Api.growth_formula.
  destruct (Float64.int_truediv (curr_pop - prev_pop) prev_pop) as [q|] eqn:Hq; [|discriminate].
  cbn. unfold Float64.mul_int.
  change (Float64.of_int 100) with (Ok (Float64.round_int 100)). cbn. intros [= <-].
  destruct (int_truediv_sign _ _ _ Hprev Hq) as (Hzero & Hpos & Hneg).
  assert (Hcases : curr_pop = prev_pop \/ prev_pop < curr_pop \/ curr_pop < prev_pop) by lia.
  destruct Hcases as [Heq|[Hgt|Hlt]].
  - rewrite (Hzero ltac:(lia)). repeat split; reflexivity.
  - pose proof (mul_hundred_sign q false (Hpos ltac:(lia))) as Hs.
    split; [by eapply has_sign_not_nan|]. split; [lia|].
    split; [intros _; by apply has_sign_false_geb|lia].
  - pose proof (mul_hundred_sign q true (Hneg ltac:(lia))) as Hs.
    split; [by eapply has_sign_not_nan|]. split; [lia|].
    split; [lia|intros _; by apply has_sign_true_leb].
Qed.

Lemma growth_rate_sign_witness :
  Float64.is_nan (S754_finite true 5629499534213120 (-49)) = false
  /\ (99 = 110 -> S754_finite true 5629499534213120 (-49) = S754_zero false)
  /\ (110 <= 99 -> Float64.geb (S754_finite true 5629499534213120 (-49)) Float64.zero = true)
  /\ (99 <= 110 -> Float64.leb (S754_finite true 5629499534213120 (-49)) Float64.zero = true).
Proof.
  apply (growth_rate_sign 110 99).
  - lia.
  - vm_compute. reflexivity.
Defined.

(** ** The growth-rate pass, run again and run on fetched records *)

Section GrowthPassMore.
Import Api.
Implicit Types (orig cur out fetched : list (PopulationData Z)) (p o c : PopulationData Z).

(** After a pass every quotient of a second pass is one the first computed. *)
Lemma pass_rates_defined fetched out :
  calculate_growth_rate fetched = Ok out -> rates_defined out.
Proof.
  intros H j p' o' Hp' Ho' Hpos.
  pose proof (calculate_growth_rate_done _ _ H) as Hinv.
  pose proof Hinv as (Hlen & Hsame & Hdone).
  destruct (lookup_lt_is_Some_2 fetched j) as [p Hp].
  { rewrite <- Hlen. by eapply lookup_lt_Some. }
  destruct (lookup_lt_is_Some_2 fetched (S j)) as [o Ho].
  { rewrite <- Hlen. by eapply lookup_lt_Some. }
  rewrite (done_upto_population _ _ _ _ _ _ Hinv Hp Hp') in *.
  rewrite (done_upto_population _ _ _ _ _ _ Hinv Ho Ho').
  destruct (Hdone (S j) p o) as (c & _ & Hann).
  { apply lookup_lt_Some in Ho. lia. }
  { by replace (S j - 1)%nat with j by lia. }
  { done. }
  unfold annotated in Hann. apply Z.ltb_lt in Hpos. rewrite Hpos in Hann.
  destruct Hann as (g & Hg & _). eauto.
Qed.

Lemma pass_again fetched out out' :
  calculate_growth_rate fetched = Ok out -> calculate_growth_rate out = Ok out' -> out' = out.
Proof.
  intros H H'.
  pose proof (calculate_growth_rate_done _ _ H) as Hinv.
  pose proof (calculate_growth_rate_done _ _ H') as Hinv'.
  pose proof Hinv as (Hlen & Hsame & Hdone).
  pose proof Hinv' as (Hlen' & Hsame' & Hdone').
  apply list_eq. intros j.
  destruct (decide (j = 0%nat \/ (length out - 1 < j)%nat)) as [Hj|Hj]; [by apply Hsame'|].
  destruct (lookup_lt_is_Some_2 out (j - 1)%nat ltac:(lia)) as [p' Hp'].
  destruct (lookup_lt_is_Some_2 out j ltac:(lia)) as [o' Ho'].
  destruct (lookup_lt_is_Some_2 fetched (j - 1)%nat ltac:(lia)) as [p Hp].
  destruct (lookup_lt_is_Some_2 fetched j ltac:(lia)) as [o Ho].
  destruct (Hdone' j p' o' ltac:(lia) Hp' Ho') as (c' & Hc' & Hann').
  destruct (Hdone j p o ltac:(lia) Hp Ho) as (c & Hc & Hann).
  assert (c = o') as -> by congruence.
  rewrite Hc', Ho'. f_equal.
  unfold annotated in *.
  rewrite (done_upto_population _ _ _ _ _ _ Hinv Hp Hp') in Hann'.
  destruct (0 <? population p); [|done].
  destruct Hann as (g & Hg & ->). destruct Hann' as (g' & Hg' & ->).
  simpl in Hg'. rewrite Hg in Hg'. injection Hg' as <-. reflexivity.
Qed.

(** The shape of the output on records fresh from the fetcher. *)
Lemma fresh_pass fetched out :
  Forall fresh_record fetched -> calculate_growth_rate fetched = Ok out ->
  forall (j : nat) c, out !! j = Some c ->
    0 < population c < 2 ^ 1023
    /\ (j = 0%nat -> growth_rate c = None)
    /\ (j <> 0%nat -> exists r, growth_rate c = Some r /\ Float64.is_nan r = false).
Proof.
  intros Hfresh H j c Hc.
  pose proof (calculate_growth_rate_done _ _ H) as Hinv.
  pose proof Hinv as (Hlen & Hsame & Hdone).
  pose proof (proj1 (Forall_lookup _ _) Hfresh) as Hl.
  destruct (lookup_lt_is_Some_2 fetched j) as [o Ho].
  { rewrite <- Hlen. by eapply lookup_lt_Some. }
  destruct (Hl _ _ Ho) as [Hpop Hnone].
  rewrite <- (done_upto_population _ _ _ _ _ _ Hinv Ho Hc) in Hpop.
  split; [done|]. split.
  - intros ->. rewrite Hsame in Hc by (by left). congruence.
  - intros Hj.
    destruct (lookup_lt_is_Some_2 fetched (j - 1)%nat) as [p Hp].
    { apply lookup_lt_Some in Ho. lia. }
    destruct (Hdone j p o) as (c' & Hc' & Hann); [|done|done|].
    { apply lookup_lt_Some in Ho. lia. }
    assert (c' = c) as -> by congruence.
    destruct (Hl _ _ Hp) as [[Hppos _] _].
    unfold annotated in Hann. pose proof Hppos as Hb. apply Z.ltb_lt in Hb. rewrite Hb in Hann.
    destruct Hann as (g & Hg & ->). exists g. split; [done|].
    unfold growth_formula in Hg.
    destruct (Float64.int_truediv _ _) as [q|] eqn:Hq; [|discriminate].
    cbn in Hg. unfold Float64.mul_int in Hg.
    change (Float64.of_int 100) with (Ok (Float64.round_int 100)) in Hg. cbn in Hg.
    injection Hg as <-.
    destruct (int_truediv_sign _ _ _ Hppos Hq) as (Hzero & Hposq & Hnegq).
    destruct (Z.lt_trichotomy (population o - population p) 0) as [Hlt|[Heq|Hgt]].
    + eapply has_sign_not_nan, mul_hundred_sign, Hnegq, Hlt.
    + by rewrite (Hzero Heq).
    + eapply has_sign_not_nan, mul_hundred_sign, Hposq, Hgt.
Qed.

Lemma fresh_rates_defined fetched : Forall fresh_record fetched -> rates_defined fetched.
Proof.
  intros Hfresh. apply bounded_rates_defined.
  eapply Forall_impl; [exact Hfresh|]. intros d [Hpop _]. simpl. lia.
Qed.

End GrowthPassMore.

(** X10.  The growth-rate pass of lines 136-141 is idempotent: run on a
    list that it has returned, it returns that list again, every rate being
    recomputed from the same populations. *)
Theorem calculate_growth_rate_idempotent (fetched out : list (Api.PopulationData Z)) :
  Api.calculate_growth_rate fetched = Ok out ->
  Api.calculate_growth_rate out = Ok out.
Proof.
  intros H.
  destruct (calculate_growth_rate_total out (pass_rates_defined _ _ H)) as [out' H'].
  by rewrite H', (pass_again _ _ _ H H').
Qed.

Lemma calculate_growth_rate_idempotent_witness :
  Api.calculate_growth_rate
    [Api.mkPopulationData "USA" 2000 100 None;
     Api.mkPopulationData "USA" 2001 110 (Some (Float64.round_int 10));
     Api.mkPopulationData "USA" 2002 99 (Some (Float64.round_int (-10)))]
  = Ok [Api.mkPopulationData "USA" 2000 100 None;
        Api.mkPopulationData "USA" 2001 110 (Some (Float64.round_int 10));
        Api.mkPopulationData "USA" 2002 99 (Some (Float64.round_int (-10)))].
Proof.
  apply (calculate_growth_rate_idempotent example_series). vm_compute. reflexivity.
Defined.

(** X11.  On records as the range fetcher yields them (population
    positive and below [2^1023], no growth rate) the pass returns, and in
    its result the record at index 0 is the only one without a growth rate;
    no rate it sets is NaN. *)
Theorem fresh_series_first_rate_only (fetched : list (Api.PopulationData Z)) :
  Forall fresh_record fetched ->
  exists out,
    Api.calculate_growth_rate fetched = Ok out
    /\ forall (j : nat) d, out !! j = Some d ->
         (Api.growth_rate d = None <-> j = 0%nat)
         /\ (forall r, Api.growth_rate d = Some r -> Float64.is_nan r = false).
Proof.
  intros Hfresh.
  destruct (calculate_growth_rate_total fetched (fresh_rates_defined _ Hfresh)) as [out H].
  exists out. split; [done|]. intros j d Hd.
  destruct (fresh_pass _ _ Hfresh H j d Hd) as (_ & Hzero & Hrest).
  destruct (decide (j = 0%nat)) as [->|Hj].
  - rewrite (Hzero eq_refl). split; [done|]. discriminate.
  - destruct (Hrest Hj) as (r & Hr & Hnan). rewrite Hr. split.
    + split; [discriminate|done].
    + by intros r' [= <-].
Qed.

Lemma fresh_series_first_rate_only_witness :
  exists out,
    Api.calculate_growth_rate example_series = Ok out
    /\ forall (j : nat) d, out !! j = Some d ->
         (Api.growth_rate d = None <-> j = 0%nat)
         /\ (forall r, Api.growth_rate d = Some r -> Float64.is_nan r = false).
Proof.
  apply (fresh_series_first_rate_only example_series).
  repeat constructor.
Defined.

(** ** The analyzer and the filter *)

Section AnalyzerMore.
Import Analysis.
Implicit Types (data valid : list (Api.PopulationData Z)).

Lemma filter_head_split {A} (f : A -> bool) (l : list A) (x : A) (rest : list A) :
  List.filter f l = x :: rest ->
  exists before after,
    l = before ++ x :: after /\ Forall (fun y => f y = false) before /\ f x = true
    /\ rest = List.filter f after.
Proof.
  induction l as [|y l IH]; [done|]. simpl. destruct (f y) eqn:Hy.
  - intros [= -> <-]. exists [], l. done.
  - intros H. destruct (IH H) as (before & after & -> & Hb & Hx & Hr).
    exists (y :: before), after. split; [done|]. split; [by constructor|done].
Qed.

Lemma valid_proj_elem (f : Api.PopulationData Z -> Z) data (x : Z) :
  x ∈ f <$> process_population_data data
  <-> exists d, d ∈ data /\ 0 < Api.population d /\ f d = x.
Proof.
  rewrite list_elem_of_fmap. split.
  - intros (d & -> & Hd). apply process_population_data_elem in Hd as [Hd Hp]. eauto.
  - intros (d & Hd & Hp & <-). exists d. split; [done|].
    by apply process_population_data_elem.
Qed.

Lemma max_ext (l l' : list Z) : (forall y, y ∈ l <-> y ∈ l') -> Pandas.max l = Pandas.max l'.
Proof.
  intros H. destruct l as [|x l], l' as [|x' l']; simpl.
  - done.
  - assert (Hx : x' ∈ @nil Z) by (apply H; left). by apply not_elem_of_nil in Hx.
  - assert (Hx : x ∈ @nil Z) by (apply H; left). by apply not_elem_of_nil in Hx.
  - f_equal. destruct (foldl_max_spec l x) as [Hin Hub].
    destruct (foldl_max_spec l' x') as [Hin' Hub'].
    apply H in Hin. apply H in Hin'. specialize (Hub _ Hin'). specialize (Hub' _ Hin). lia.
Qed.

Lemma min_ext (l l' : list Z) : (forall y, y ∈ l <-> y ∈ l') -> Pandas.min l = Pandas.min l'.
Proof.
  intros H. destruct l as [|x l], l' as [|x' l']; simpl.
  - done.
  - assert (Hx : x' ∈ @nil Z) by (apply H; left). by apply not_elem_of_nil in Hx.
  - assert (Hx : x ∈ @nil Z) by (apply H; left). by apply not_elem_of_nil in Hx.
  - f_equal. destruct (foldl_min_spec l x) as [Hin Hlb].
    destruct (foldl_min_spec l' x') as [Hin' Hlb'].
    apply H in Hin. apply H in Hin'. specialize (Hlb _ Hin'). specialize (Hlb' _ Hin). lia.
Qed.

Lemma valid_proj_ext (f : Api.PopulationData Z -> Z) data data' :
  (forall d, 0 < Api.population d -> d ∈ data <-> d ∈ data') ->
  forall y, y ∈ f <$> process_population_data data <-> y ∈ f <$> process_population_data data'.
Proof.
  intros H y. rewrite !valid_proj_elem.
  split; intros (d & Hd & Hp & Hy); exists d; (split; [by apply (H d Hp)|done]).
Qed.

End AnalyzerMore.

(** X12.  Whenever the analyzer returns, [country] is the country of the
    first record of the input, in input order, whose population is
    positive; [start_year] and [end_year] are the least and the greatest
    year among the records of positive population, whatever the order of
    the input, so that [start_year <= end_year]. *)
Theorem analyze_country_and_years
    (fsum : list float -> float) (data : list (Api.PopulationData Z))
    (a : Analysis.PopulationAnalysis) :
  Analysis.analyze_population_trends fsum data = Ok a ->
  (exists before first after,
     data = before ++ first :: after
     /\ Forall (fun d => Api.population d <= 0) before
     /\ 0 < Api.population first
     /\ Analysis.country a = Api.country first)
  /\ exists lo hi,
       Analysis.start_year a = Int lo /\ Analysis.end_year a = Int hi /\ lo <= hi
       /\ (exists d, d ∈ data /\ 0 < Api.population d /\ Api.year d = lo)
       /\ (exists d, d ∈ data /\ 0 < Api.population d /\ Api.year d = hi)
       /\ forall d, d ∈ data -> 0 < Api.population d -> lo <= Api.year d <= hi.
Proof.
  intros Ha.
  destruct (Analysis.process_population_data data) as [|first rest] eqn:Hvalid.
  { unfold Analysis.analyze_population_trends in Ha. by rewrite Hvalid in Ha. }
  rewrite (analyze_valid fsum data first rest Hvalid) in Ha. injection Ha as <-.
  split.
  - destruct (filter_head_split _ _ _ _ Hvalid) as (before & after & -> & Hb & Hx & _).
    exists before, first, after. split; [done|]. split; [|split; [by apply Z.ltb_lt|done]].
    eapply Forall_impl; [exact Hb|]. intros d Hd. simpl in Hd. by apply Z.ltb_ge.
  - cbn [Analysis.start_year Analysis.end_year Pandas.max Pandas.min fmap list_fmap].
    set (years := Api.year <$> rest).
    destruct (foldl_max_spec years (Api.year first)) as [Hhi_in Hhi].
    destruct (foldl_min_spec years (Api.year first)) as [Hlo_in Hlo].
    set (hi := foldl Z.max (Api.year first) years) in *.
    set (lo := foldl Z.min (Api.year first) years) in *.
    assert (Hyears : forall y, y ∈ Api.year first :: years <->
                       exists d, d ∈ data /\ 0 < Api.population d /\ Api.year d = y).
    { intros y. change (Api.year first :: years) with (Api.year <$> first :: rest).
      rewrite <- Hvalid. apply valid_proj_elem. }
    exists lo, hi. split; [done|]. split; [done|].
    split; [by apply Hhi|]. split; [by apply Hyears|]. split; [by apply Hyears|].
    intros d Hd Hp. split; [apply Hlo|apply Hhi]; apply Hyears; eauto.
Qed.

Lemma analyze_country_and_years_witness :
  (exists before first after,
     mixed_series = before ++ first :: after
     /\ Forall (fun d => Api.population d <= 0) before
     /\ 0 < Api.population first
     /\ "USA" = Api.country first)
  /\ exists lo hi,
       Int 2000 = Int lo /\ Int 2002 = Int hi /\ lo <= hi
       /\ (exists d, d ∈ mixed_series /\ 0 < Api.population d /\ Api.year d = lo)
       /\ (exists d, d ∈ mixed_series /\ 0 < Api.population d /\ Api.year d = hi)
       /\ forall d, d ∈ mixed_series -> 0 < Api.population d -> lo <= Api.year d <= hi.
Proof.
  apply (analyze_country_and_years left_to_right_sum mixed_series
           (Analysis.mkAnalysis "USA" (Int 2000) (Int 2002) (Float Float64.nan)
              (Int 110) (Int 99) (Int 11)
              (Float (S754_finite false 6254999482459022 (-49))))).
  vm_compute. reflexivity.
Defined.

(** X13.  The extremes, the total and percentage change and the first and
    last year that the analyzer reports depend only on which records of
    positive population the input holds: two inputs of populations that fit
    in 64 bits holding the same ones, in any order, with any repetitions and
    with any other records of non-positive population, either both fail with
    the no-data error or both return analyses that agree on these six
    fields, whatever the summation order. *)
Theorem analyze_depends_on_valid_records
    (fsum fsum' : list float -> float) (data data' : list (Api.PopulationData Z)) :
  Forall int64_population data -> Forall int64_population data' ->
  (forall d, 0 < Api.population d -> d ∈ data <-> d ∈ data') ->
  Analysis.analyze_population_trends fsum data = Raise Analysis.no_data
  /\ Analysis.analyze_population_trends fsum' data' = Raise Analysis.no_data
  \/ exists a a',
       Analysis.analyze_population_trends fsum data = Ok a
       /\ Analysis.analyze_population_trends fsum' data' = Ok a'
       /\ Analysis.max_population a' = Analysis.max_population a
       /\ Analysis.min_population a' = Analysis.min_population a
       /\ Analysis.total_change a' = Analysis.total_change a
       /\ Analysis.percentage_change a' = Analysis.percentage_change a
       /\ Analysis.start_year a' = Analysis.start_year a
       /\ Analysis.end_year a' = Analysis.end_year a.
Proof.
  intros _ _ H.
  pose proof (valid_proj_ext Api.population data data' H) as Hpop.
  pose proof (valid_proj_ext Api.year data data' H) as Hyear.
  destruct (Analysis.process_population_data data) as [|first rest] eqn:Hvalid;
    destruct (Analysis.process_population_data data') as [|first' rest'] eqn:Hvalid'.
  - left. unfold Analysis.analyze_population_trends. by rewrite Hvalid, Hvalid'.
  - exfalso. eapply not_elem_of_nil, Hpop. left.
  - exfalso. eapply not_elem_of_nil, Hpop. left.
  - right. rewrite (analyze_valid fsum data first rest Hvalid).
    rewrite (analyze_valid fsum' data' first' rest' Hvalid').
    eexists _, _. split; [reflexivity|]. split; [reflexivity|].
    cbn [Analysis.max_population Analysis.min_population Analysis.total_change
         Analysis.percentage_change Analysis.start_year Analysis.end_year].
    rewrite (max_ext _ _ Hpop), (min_ext _ _ Hpop), (max_ext _ _ Hyear), (min_ext _ _ Hyear).
    done.
Qed.

Lemma analyze_depends_on_valid_records_witness :
  Analysis.analyze_population_trends left_to_right_sum example_series = Raise Analysis.no_data
  /\ Analysis.analyze_population_trends left_to_right_sum mixed_series = Raise Analysis.no_data
  \/ exists a a',
       Analysis.analyze_population_trends left_to_right_sum example_series = Ok a
       /\ Analysis.analyze_population_trends left_to_right_sum mixed_series = Ok a'
       /\ Analysis.max_population a' = Analysis.max_population a
       /\ Analysis.min_population a' = Analysis.min_population a
       /\ Analysis.total_change a' = Analysis.total_change a
       /\ Analysis.percentage_change a' = Analysis.percentage_change a
       /\ Analysis.start_year a' = Analysis.start_year a
       /\ Analysis.end_year a' = Analysis.end_year a.
Proof.
  apply (analyze_depends_on_valid_records left_to_right_sum left_to_right_sum
           example_series mixed_series); [repeat constructor..|].
  intros d Hd. unfold example_series, mixed_series.
  rewrite !elem_of_cons, !elem_of_nil. split.
  - intros [->|[->|[->|[]]]]; auto 10.
  - intros [->|[->|[->|[->|[->|[]]]]]]; auto; simpl in Hd; lia.
Defined.

Section FilterMore.
Import Analysis.
Implicit Types (data : list (Api.PopulationData Z)) (lo hi : option number).

Lemma in_bounds_not_nan lo hi (r : float) :
  is_Some lo \/ is_Some hi -> in_bounds lo hi r = true -> Float64.is_nan r = false.
Proof.
  intros Hb. destruct r; try done. unfold in_bounds.
  destruct lo as [[z|b]|]; [done| |].
  - by destruct b.
  - destruct hi as [[z|b]|]; [done| |].
    + by destruct b.
    + destruct Hb as [[? [=]]|[? [=]]].
Qed.

Lemma int_bounds_ordered (r : float) (a b : Z) :
  Float64.geb_int r a = true -> Float64.leb_int r b = true -> a <= b.
Proof.
  unfold Float64.geb_int, Float64.leb_int, Float64.compare_int.
  destruct r as [s|s| |s m e]; try done.
  - destruct (Z.compare_spec 0 a), (Z.compare_spec 0 b); try done; intros _ _; lia.
  - by destruct s.
  - destruct (Z.leb_spec 0 e).
    + generalize (Float64.signed_mantissa s m * 2 ^ e). intros x.
      destruct (Z.compare_spec x a), (Z.compare_spec x b); try done; intros _ _; lia.
    + assert (Hk : 0 < 2 ^ (- e)) by (apply Z.pow_pos_nonneg; lia).
      revert Hk. generalize (2 ^ (- e)) (Float64.signed_mantissa s m). intros k x Hk.
      destruct (Z.compare_spec x (a * k)), (Z.compare_spec x (b * k)); try done; intros _ _; nia.
Qed.

Lemma list_filter_sublist {A} (f : A -> bool) (l : list A) : sublist (List.filter f l) l.
Proof.
  induction l as [|x l IH]; simpl; [constructor|].
  destruct (f x); by constructor.
Qed.

Lemma filter_returns_set lo hi data out :
  is_Some lo \/ is_Some hi -> filter_by_growth_rate data lo hi = Ok out ->
  Forall (fun d => is_Some (Api.growth_rate d)) data.
Proof.
  intros Hb Hout. apply Forall_forall. intros d Hd.
  destruct (Api.growth_rate d) as [r|] eqn:Hr; [eauto|].
  rewrite (filter_raises lo hi data Hb) in Hout; [discriminate|eauto].
Qed.

End FilterMore.

(** X14.  With neither bound given, [filter_by_growth_rate] returns the
    list unchanged, records without a growth rate included: the lambda
    short-circuits before it reads the rate. *)
Theorem filter_without_bounds (data : list (Api.PopulationData Z)) :
  Analysis.filter_by_growth_rate data None None = Ok data.
Proof.
  unfold Analysis.filter_by_growth_rate.
  induction data as [|x data IH]; [done|]. simpl. cbn. by rewrite IH.
Qed.

(** X15.  When a bound is given and [filter_by_growth_rate] returns, every
    record of the input had a growth rate, the result is a sublist of the
    input, and it holds exactly the records whose rate is not NaN and
    satisfies the bounds given. *)
Theorem filter_by_growth_rate_returns
    (data out : list (Api.PopulationData Z)) (min_growth max_growth : option number) :
  is_Some min_growth \/ is_Some max_growth ->
  Analysis.filter_by_growth_rate data min_growth max_growth = Ok out ->
  Forall (fun d => is_Some (Api.growth_rate d)) data
  /\ sublist out data
  /\ forall d, d ∈ out <->
       d ∈ data /\ exists r, Api.growth_rate d = Some r /\ Float64.is_nan r = false
                             /\ in_bounds min_growth max_growth r = true.
Proof.
  intros Hb Hout.
  pose proof (filter_returns_set _ _ _ _ Hb Hout) as Hset.
  rewrite (filter_all_set _ _ _ Hset) in Hout. injection Hout as <-.
  split; [done|]. split; [apply list_filter_sublist|].
  intros d. rewrite list_elem_of_In, filter_In, <- list_elem_of_In. split.
  - intros [Hd Hin]. split; [done|].
    destruct (Api.growth_rate d) as [r|]; [|done]. simpl in Hin.
    exists r. eauto using in_bounds_not_nan.
  - intros [Hd (r & -> & _ & Hin)]. done.
Qed.

Lemma filter_by_growth_rate_returns_witness :
  Forall (fun d => is_Some (Api.growth_rate d)) rated_series
  /\ sublist [Api.mkPopulationData "USA" 2001 110 (Some (Float64.round_int 10))] rated_series
  /\ forall d, d ∈ [Api.mkPopulationData "USA" 2001 110 (Some (Float64.round_int 10))] <->
       d ∈ rated_series /\ exists r, Api.growth_rate d = Some r /\ Float64.is_nan r = false
                                     /\ in_bounds (Some (Int 5)) None r = true.
Proof.
  apply (filter_by_growth_rate_returns rated_series).
  - left. eauto.
  - vm_compute. reflexivity.
Defined.

(** X16.  With integer bounds such that [max_growth < min_growth],
    [filter_by_growth_rate] returns no record whenever it returns: the
    comparisons of a float with an int are exact, and no rate lies above
    [min_growth] and below [max_growth]. *)
Theorem filter_empty_interval
    (data out : list (Api.PopulationData Z)) (min_growth max_growth : Z) :
  max_growth < min_growth ->
  Analysis.filter_by_growth_rate data (Some (Int min_growth)) (Some (Int max_growth)) = Ok out ->
  out = [].
Proof.
  intros Hlt Hout.
  pose proof (filter_returns_set _ _ _ _ ltac:(left; eauto) Hout) as Hset.
  rewrite (filter_all_set _ _ _ Hset) in Hout. injection Hout as <-.
  clear Hset. induction data as [|x data IH]; [done|]. simpl.
  destruct (Api.growth_rate x) as [r|]; [|done]. simpl.
  destruct (in_bounds _ _ r) eqn:Hin; [|done].
  unfold in_bounds in Hin. apply andb_true_iff in Hin as [Hge Hle].
  pose proof (int_bounds_ordered r _ _ Hge Hle). lia.
Qed.

Lemma filter_empty_interval_witness :
  @nil (Api.PopulationData Z) = [].
Proof.
  apply (filter_empty_interval rated_series [] 5 1).
  - lia.
  - vm_compute. reflexivity.
Defined.

(** ** The export *)

Section CsvExport.
Import Analysis.

Lemma export_table (data : list (Api.PopulationData Z)) (filename : string)
    (files : gmap string (list (list Pandas.csv_field))) :
  export_to_csv data filename files !! filename
  = Some (match data with [] => [[]] | _ => csv_header :: (csv_row <$> data) end).
Proof.
  unfold export_to_csv. rewrite lookup_insert_eq. f_equal.
  destruct data as [|d rest]; [done|].
  unfold Pandas.to_csv.
  change (fun d0 : Api.PopulationData Z => (export_dict d0).*1)
    with (fun _ : Api.PopulationData Z => ["country"; "year"; "population"; "growth_rate"]).
  rewrite from_dicts_columns. reflexivity.
Qed.

Lemma float_field_inj (c1 c2 : option float) (r : float) :
  Pandas.float_field c1 = Pandas.float_field c2 -> Float64.is_nan r = false ->
  c1 = Some r -> c2 = Some r.
Proof.
  intros H Hr ->. simpl in H. rewrite Hr in H.
  destruct c2 as [r'|]; [|done]. simpl in H.
  destruct (Float64.is_nan r'); [done|]. by injection H as ->.
Qed.

End CsvExport.

(** X17.  The table that [export_to_csv] writes determines the records:
    two exports that write the same table had as many records, with the
    same country, year and population position by position and the same
    growth rate wherever one of them is a number.  (A NaN rate and an unset
    rate are both written as the empty field.) *)
Theorem export_identifies_records
    (data1 data2 : list (Api.PopulationData Z)) (filename : string)
    (files1 files2 : gmap string (list (list Pandas.csv_field))) :
  Analysis.export_to_csv data1 filename files1 !! filename
  = Analysis.export_to_csv data2 filename files2 !! filename ->
  Forall2 (fun d1 d2 =>
             Api.country d1 = Api.country d2 /\ Api.year d1 = Api.year d2
             /\ Api.population d1 = Api.population d2
             /\ forall r, Float64.is_nan r = false ->
                  Api.growth_rate d1 = Some r <-> Api.growth_rate d2 = Some r)
          data1 data2.
Proof.
  rewrite !export_table. intros [= H].
  assert (Hrows : csv_row <$> data1 = csv_row <$> data2).
  { unfold csv_header in H. destruct data1, data2; try done. exact (f_equal (@tail _) H). }
  clear H. revert data2 Hrows.
  induction data1 as [|d1 data1 IH]; intros [|d2 data2]; try done.
  intros [= Hc Hy Hp Hr Hrest]. constructor; [|by apply IH].
  do 3 (split; [done|]).
  intros r Hnan. split; apply float_field_inj; done.
Qed.

Lemma export_identifies_records_witness :
  Forall2 (fun d1 d2 =>
             Api.country d1 = Api.country d2 /\ Api.year d1 = Api.year d2
             /\ Api.population d1 = Api.population d2
             /\ forall r, Float64.is_nan r = false ->
                  Api.growth_rate d1 = Some r <-> Api.growth_rate d2 = Some r)
          [Api.mkPopulationData "USA" 2000 100 None]
          [Api.mkPopulationData "USA" 2000 100 (Some Float64.nan)].
Proof.
  apply (export_identifies_records _ _ "population_data_USA.csv" ∅ ∅).
  rewrite !export_table. reflexivity.
Defined.

(** ** The dashboard *)

Section DashboardMore.
Import Api.
Implicit Types (out fetched : list (PopulationData Z)).

Lemma growth_data_rated (l : list (PopulationData Z)) :
  Forall (fun d => exists r, growth_rate d = Some r /\ Float64.is_nan r = false) l ->
  (Dashboard.growth_data l).*1 = year <$> l
  /\ Forall (fun pt => Float64.is_nan pt.2 = false) (Dashboard.growth_data l)
  /\ Pandas.present (growth_rate <$> l) = (Dashboard.growth_data l).*2.
Proof.
  unfold Dashboard.growth_data, Pandas.present.
  induction 1 as [|d l (r & Hr & Hnan) _ (IH1 & IH2 & IH3)]; [done|].
  cbn. rewrite Hr. cbn. rewrite Hnan. cbn.
  split; [by f_equal|]. split; [by constructor|by f_equal].
Qed.

Lemma pass_trend fetched out :
  calculate_growth_rate fetched = Ok out ->
  Dashboard.trend out = Dashboard.trend fetched /\ year <$> out = year <$> fetched.
Proof.
  intros H. pose proof (calculate_growth_rate_fields _ _ H) as Hf.
  pose proof (calculate_growth_rate_done _ _ H) as (Hlen & _ & _).
  unfold Dashboard.trend.
  split; apply list_eq; intros j; rewrite !list_lookup_fmap;
    (destruct (fetched !! j) as [o|] eqn:Ho;
     [destruct (Hf j o Ho) as (c & -> & _ & Hy & Hp); simpl; congruence
     |apply lookup_ge_None in Ho; rewrite lookup_ge_None_2 by lia; done]).
Qed.

Lemma valid_all (l : list (PopulationData Z)) :
  Forall (fun d => 0 < population d) l -> Analysis.process_population_data l = l.
Proof.
  unfold Analysis.process_population_data.
  induction 1 as [|d l Hd _ IH]; [done|]. simpl.
  apply Z.ltb_lt in Hd. by rewrite Hd, IH.
Qed.

End DashboardMore.

(** X18.  What a click on "Analyze" shows for records as the range fetcher
    yields them.  When there is none: the "no data" error, and nothing
    else.  Otherwise the analysis never fails, the population chart has the
    years and populations of the records in the order fetched, and: with a
    single record the growth chart is replaced by the warning and the
    average growth rate shown is NaN; with more, the growth chart has one
    point per record but the first, at the years of these records, no rate
    being NaN, and the average growth rate is the mean of the rates
    charted. *)
Theorem dashboard_report (fsum : list float -> float) (fetched : list (Api.PopulationData Z)) :
  Forall fresh_record fetched ->
  fetched = [] /\ Dashboard.analyze_clicked fsum fetched = Ok Dashboard.NoData
  \/ exists first rest analysis growth,
       fetched = first :: rest
       /\ Dashboard.analyze_clicked fsum fetched
          = Ok (Dashboard.Report analysis (Dashboard.trend fetched) growth)
       /\ (rest = [] ->
           growth = None /\ Analysis.average_growth_rate analysis = Float Float64.nan)
       /\ (rest <> [] ->
           exists points, growth = Some points
             /\ points.*1 = Api.year <$> rest
             /\ Forall (fun pt => Float64.is_nan pt.2 = false) points
             /\ Analysis.average_growth_rate analysis
                = Float (Float64.div (fsum points.*2)
                           (Float64.round_int (Z.of_nat (length points))))).
Proof.
  intros Hfresh. destruct fetched as [|first rest]; [by left|]. right.
  destruct (calculate_growth_rate_total _ (fresh_rates_defined _ Hfresh)) as [out H].
  pose proof (fresh_pass _ _ Hfresh H) as Hshape.
  pose proof (pass_trend _ _ H) as [Htrend Hyears].
  pose proof (calculate_growth_rate_done _ _ H) as (Hlen & _ & _).
  destruct out as [|c0 crest]; [done|].
  assert (Hvalid : Analysis.process_population_data (c0 :: crest) = c0 :: crest).
  { apply valid_all, Forall_lookup. intros j c Hc.
    by destruct (Hshape j c Hc) as [[? _] _]. }
  assert (Hc0 : Api.growth_rate c0 = None).
  { by destruct (Hshape 0%nat c0 eq_refl) as (_ & Hz & _); apply Hz. }
  assert (Hrated : Forall (fun d => exists r, Api.growth_rate d = Some r
                                      /\ Float64.is_nan r = false) crest).
  { apply Forall_lookup. intros j c Hc.
    destruct (Hshape (S j) c Hc) as (_ & _ & Hr). by apply Hr. }
  destruct (growth_data_rated crest Hrated) as (Hpts & Hnan & Hpresent).
  assert (Hcrest : Api.year <$> crest = Api.year <$> rest) by (by injection Hyears).
  assert (Hgrowth : Dashboard.growth_data (c0 :: crest) = Dashboard.growth_data crest).
  { unfold Dashboard.growth_data. cbn. by rewrite Hc0. }
  assert (Hmean : Pandas.present (Api.growth_rate c0 :: (Api.growth_rate <$> crest))
                  = (Dashboard.growth_data crest).*2).
  { rewrite <- Hpresent. unfold Pandas.present. cbn. by rewrite Hc0. }
  exists first, rest. unfold Dashboard.analyze_clicked. rewrite H.
  cbn -[Dashboard.trend Dashboard.growth_data Analysis.analyze_population_trends].
  rewrite (analyze_valid fsum _ _ _ Hvalid).
  cbn -[Dashboard.trend Dashboard.growth_data Pandas.mean Pandas.max Pandas.min Np.sub Np.mul
        Np.truediv Np.gtb].
  rewrite Htrend, Hgrowth.
  eexists _, _. split; [done|]. split; [reflexivity|].
  cbn [Analysis.average_growth_rate]. unfold Pandas.mean.
  rewrite Hmean. split.
  - intros ->. destruct crest; [done|]. simpl in Hlen. lia.
  - intros Hrest. destruct crest as [|c1 crest'].
    { destruct rest; [done|]. simpl in Hlen. lia. }
    destruct (Dashboard.growth_data (c1 :: crest')) as [|pt pts] eqn:Hg.
    { simpl in Hpts. discriminate. }
    exists (pt :: pts). rewrite <- Hcrest.
    split; [done|]. split; [done|]. split; [done|].
    cbn [fmap list_fmap length]. by rewrite length_fmap.
Qed.

Lemma dashboard_report_witness :
  example_series = []
  /\ Dashboard.analyze_clicked left_to_right_sum example_series = Ok Dashboard.NoData
  \/ exists first rest analysis growth,
       example_series = first :: rest
       /\ Dashboard.analyze_clicked left_to_right_sum example_series
          = Ok (Dashboard.Report analysis (Dashboard.trend example_series) growth)
       /\ (rest = [] ->
           growth = None /\ Analysis.average_growth_rate analysis = Float Float64.nan)
       /\ (rest <> [] ->
           exists points, growth = Some points
             /\ points.*1 = Api.year <$> rest
             /\ Forall (fun pt => Float64.is_nan pt.2 = false) points
             /\ Analysis.average_growth_rate analysis
                = Float (Float64.div (left_to_right_sum points.*2)
                           (Float64.round_int (Z.of_nat (length points))))).
Proof.
  apply (dashboard_report left_to_right_sum example_series).
  repeat constructor.
Defined.
